(** * Direct-to-storage upload broker: shallow embedding and checked properties

    Embedded sources:
    - [src/core/storage.py]  ([UploadConfig], [CloudStorageService])
    - [src/core/models.py]   ([UploadTransaction])
    - [src/core/views.py]    ([UploadInitView], [UploadCompleteView],
                              [LocalUploadView])

    Python strings are [string], integers are [Z], the transaction table is
    a finite map from primary key to row, and every function that can raise
    or that touches the database, the media storage, the logger or a vendor
    SDK runs in the monad [M] (state = [World], error = [exn]). *)

From Stdlib Require Import ZArith NArith Ascii String List Lia.
From stdpp Require Import base option gmap strings.

Local Open Scope string_scope.
Local Open Scope Z_scope.

(** ** Python strings: the few [str] operations the code uses *)

Module PyStr.

(** [s.rfind(sep)] for a one-character [sep]: the highest index at which
    [sep] occurs, [-1] when it does not occur. *)
Fixpoint rfind (sep : ascii) (s : string) : Z :=
  match s with
  | EmptyString => -1
  | String c s' =>
      let r := rfind sep s' in
      if 0 <=? r then r + 1
      else if Ascii.eqb c sep then 0 else -1
  end.

(** [s[i:]] for [0 <= i]. *)
Fixpoint slice_from (i : nat) (s : string) : string :=
  match i, s with
  | O, _ => s
  | S _, EmptyString => EmptyString
  | S i', String _ s' => slice_from i' s'
  end.

(** [s[:i]] for [0 <= i]. *)
Fixpoint slice_to (i : nat) (s : string) : string :=
  match i, s with
  | O, _ => EmptyString
  | S _, EmptyString => EmptyString
  | S i', String c s' => String c (slice_to i' s')
  end.

(** [c in s]. *)
Fixpoint contains (c : ascii) (s : string) : bool :=
  match s with
  | EmptyString => false
  | String d s' => Ascii.eqb d c || contains c s'
  end.

(** [s.split(sep)] for a one-character [sep]. *)
Fixpoint split (sep : ascii) (s : string) : list string :=
  match s with
  | EmptyString => [EmptyString]
  | String c s' =>
      if Ascii.eqb c sep then EmptyString :: split sep s'
      else match split sep s' with
           | [] => [String c EmptyString]
           | seg :: segs => String c seg :: segs
           end
  end.

(** Truthiness of a [str]: [not s] holds for the empty string only. *)
Definition truthy (s : string) : bool :=
  match s with EmptyString => false | _ => true end.

End PyStr.

(** ** [os.path] (POSIX flavour) *)

Module os_path.

Definition sep : ascii := "/"%char.

(** [posixpath.basename]:
<<
    i = p.rfind(sep) + 1
    return p[i:]
>> *)
Definition basename (p : string) : string :=
  let i := PyStr.rfind sep p + 1 in
  PyStr.slice_from (Z.to_nat i) p.

End os_path.

(** ** [uuid.UUID] *)

(** A UUID is its 128-bit integer ([UUID.int]). *)
Definition uuid : Type := N.

Module Uuid.

Definition hex_digit (d : N) : ascii :=
  match d with
  | 0 => "0" | 1 => "1" | 2 => "2" | 3 => "3" | 4 => "4" | 5 => "5"
  | 6 => "6" | 7 => "7" | 8 => "8" | 9 => "9" | 10 => "a" | 11 => "b"
  | 12 => "c" | 13 => "d" | 14 => "e" | _ => "f"
  end%N%char.

(** ['%0<width>x' % v] for [v < 16 ^ width] (a UUID's integer is below
    [2 ^ 128], so 32 digits render it in full). *)
Fixpoint hex_fixed (width : nat) (v : N) : string :=
  match width with
  | O => EmptyString
  | S w => hex_fixed w (v / 16)%N +:+ String (hex_digit (v mod 16)%N) EmptyString
  end.

(** [UUID.__str__]:
<<
    hex = '%032x' % self.int
    return '%s-%s-%s-%s-%s' % (hex[:8], hex[8:12], hex[12:16], hex[16:20], hex[20:])
>> *)
Definition str (u : uuid) : string :=
  let hex := hex_fixed 32 u in
  let sl (a b : nat) := PyStr.slice_to (b - a) (PyStr.slice_from a hex) in
  sl 0%nat 8%nat +:+ "-" +:+ sl 8%nat 12%nat +:+ "-" +:+ sl 12%nat 16%nat
    +:+ "-" +:+ sl 16%nat 20%nat +:+ "-" +:+ PyStr.slice_from 20 hex.

End Uuid.

Arguments Uuid.str : simpl never.

(** ** Exceptions, results and the effect monad *)

(** A raised Python exception: its class and [str(e)].  Every class used
    below derives from [Exception], so [except Exception] catches them all
    and a bare [except:] does too. *)
Inductive exn : Type :=
| ImportError (msg : string)
| AttributeError (msg : string)
| IntegrityError (msg : string)
| DatabaseError (msg : string)
| Http404 (msg : string)
| ValidationError (msg : string)
| VendorError (msg : string)
| NoReverseMatch (msg : string)
| OSError (msg : string).

Definition exn_str (e : exn) : string :=
  match e with
  | ImportError m | AttributeError m | IntegrityError m | DatabaseError m
  | Http404 m | ValidationError m | VendorError m | NoReverseMatch m | OSError m => m
  end.

Inductive result (A : Type) : Type :=
| Ok (a : A)
| Raise (e : exn).
Arguments Ok {A} a.
Arguments Raise {A} e.

(** ** [models.py] *)

Inductive Status : Type := PENDING | COMPLETED | FAILED.

Global Instance Status_eq_dec : EqDecision Status.
Proof. solve_decision. Defined.

(** A row of [UploadTransaction].  [user] is the primary key of the owning
    user; [completed_at] is nullable. *)
Record UploadTransaction : Type := mkUploadTransaction {
  id : uuid;
  user : N;
  object_key : string;
  filename : string;
  file_size : Z;
  content_type : string;
  status : Status;
  created_at : Z;
  completed_at : option Z;
  backend_used : string
}.

Definition set_object_key (k : string) (t : UploadTransaction) : UploadTransaction :=
  mkUploadTransaction (id t) (user t) k (filename t) (file_size t)
    (content_type t) (status t) (created_at t) (completed_at t) (backend_used t).

Definition set_status (s : Status) (t : UploadTransaction) : UploadTransaction :=
  mkUploadTransaction (id t) (user t) (object_key t) (filename t) (file_size t)
    (content_type t) s (created_at t) (completed_at t) (backend_used t).

Definition set_completed_at (c : option Z) (t : UploadTransaction) : UploadTransaction :=
  mkUploadTransaction (id t) (user t) (object_key t) (filename t) (file_size t)
    (content_type t) (status t) (created_at t) c (backend_used t).

(** ** The world a request runs in *)

(** What a request leaves behind outside the process. *)
Inductive event : Type :=
| LogError (msg : string)                  (* logger.error(msg) *)
| S3HeadObject (bucket key : string).      (* s3.head_object(Bucket=, Key=) *)

(** Mutable state: the [UploadTransaction] table, the files held by
    [default_storage], and the trace of log lines and backend probes (oldest
    first). *)
Record World : Type := mkWorld {
  db : gmap N UploadTransaction;
  media : gmap string (list Byte.byte);
  trace : list event
}.

Definition set_db (d : gmap N UploadTransaction) (w : World) : World :=
  mkWorld d (media w) (trace w).
Definition set_media (m : gmap string (list Byte.byte)) (w : World) : World :=
  mkWorld (db w) m (trace w).
Definition emit (ev : event) (w : World) : World :=
  mkWorld (db w) (media w) (trace w ++ [ev]).

(** [M A]: a computation that reads and writes the [World] and either
    returns an [A] or raises; the world reached when the exception was
    raised is kept (nothing is rolled back). *)
Definition M (A : Type) : Type := World → result A * World.

Definition ret {A} (a : A) : M A := fun w => (Ok a, w).
Definition raise {A} (e : exn) : M A := fun w => (Raise e, w).
Definition bind {A B} (m : M A) (k : A → M B) : M B :=
  fun w => match m w with
           | (Ok a, w') => k a w'
           | (Raise e, w') => (Raise e, w')
           end.
(** [try: m  except Exception as e: h e] *)
Definition try_except {A} (m : M A) (h : exn → M A) : M A :=
  fun w => match m w with
           | (Ok a, w') => (Ok a, w')
           | (Raise e, w') => h e w'
           end.
Definition lift {A} (r : result A) : M A := fun w => (r, w).
Definition get_world : M World := fun w => (Ok w, w).
Definition modify (f : World → World) : M unit := fun w => (Ok tt, f w).

Notation "'do' x <- m ; k" := (bind m (fun x => k))
  (at level 10, x name, m at level 100, k at level 200).
Notation "'run' m ; k" := (bind m (fun _ => k))
  (at level 10, m at level 100, k at level 200).

(** ** [django.conf.settings] and the vendor SDKs *)

(** [None] stands for an attribute the settings module does not define. *)
Record Settings : Type := mkSettings {
  STORAGE_BACKEND : option string;
  BASE_URL : option string;
  AWS_ACCESS_KEY_ID : option string;
  AWS_SECRET_ACCESS_KEY : option string;
  AWS_S3_REGION_NAME : option string;
  AWS_STORAGE_BUCKET_NAME : option string;
  GS_CREDENTIALS : option string;
  GS_BUCKET_NAME : option string;
  AZURE_ACCOUNT_NAME : option string;
  AZURE_ACCOUNT_KEY : option string;
  AZURE_CONTAINER : option string
}.

(** A client returned by [boto3.client('s3', ...)]. *)
Record S3Client : Type := mkS3Client {
  (* generate_presigned_url(ClientMethod='put_object',
       Params={Bucket, Key, ContentType}, ExpiresIn) *)
  generate_presigned_url : string → string → string → Z → result string;
  (* head_object(Bucket, Key): returns, or raises when the object is absent
     or the call fails *)
  head_object : string → string → result unit
}.

(** A client returned by [gcs.Client()] / [from_service_account_json]. *)
Record GcsClient : Type := mkGcsClient {
  (* client.bucket(b).blob(key).generate_signed_url(version="v4",
       expiration=timedelta(minutes=m), method="PUT", content_type=) *)
  generate_signed_url : string → string → Z → string → result string
}.

(** The process environment of one request: settings, which SDKs were
    importable ([None]: the guarded import failed), what the SDK calls
    answer, and the other ambient values the code reads. *)
Record Env : Type := mkEnv {
  settings : Settings;
  (* boto3.client('s3', aws_access_key_id, aws_secret_access_key, region_name) *)
  boto3 : option (string → string → option string → result S3Client);
  (* gcs.Client.from_service_account_json(path) for [Some path], gcs.Client() for [None] *)
  gcs : option (option string → result GcsClient);
  (* generate_blob_sas(account_name, container_name, blob_name, account_key,
       permission=write, expiry=now + 15 min) *)
  generate_blob_sas : option (string → string → string → string → Z → result string);
  (* reverse('api:local-upload', kwargs={'transaction_id': tid}) *)
  reverse_local_upload : string → result string;
  (* default_storage.save(name, content): the name written and the new files *)
  storage_save : gmap string (list Byte.byte) → string → list Byte.byte →
                 result (string * gmap string (list Byte.byte));
  (* what the storage holds after a [save] that raised: it may have written
     part of the content before failing, and nothing in the view removes it *)
  storage_left : gmap string (list Byte.byte) → string → list Byte.byte →
                 gmap string (list Byte.byte);
  (* whether the database accepts a row (column widths, integer range) *)
  db_accepts : UploadTransaction → bool;
  uuid4 : uuid;             (* the value uuid.uuid4() returns in this request *)
  now : Z                   (* timezone.now() *)
}.

(** [settings.NAME]: raises [AttributeError] when undefined. *)
Definition setting (name : string) (v : option string) : M string :=
  match v with
  | Some s => ret s
  | None => raise (AttributeError ("'Settings' object has no attribute '" +:+ name +:+ "'"))
  end.

(** ** [storage.py] *)

Record UploadConfig : Type := mkUploadConfig {
  url : string;
  method : string;
  headers : list (string * string);
  data : list (string * string)
}.

Record CloudStorageService : Type := mkCloudStorageService {
  backend : string
}.

(** [getattr(settings, 'STORAGE_BACKEND', 'local')] *)
Definition configured_backend (E : Env) : string :=
  default "local" (STORAGE_BACKEND (settings E)).

(** [CloudStorageService.__init__] *)
Definition CloudStorageService_init (E : Env) : CloudStorageService :=
  mkCloudStorageService (configured_backend E).

(** [CloudStorageService._generate_key]:
<<
      clean_name = os.path.basename(filename)
      return f"uploads/{transaction_id}/{clean_name}"
>> *)
Definition _generate_key (self : CloudStorageService)
    (transaction_id filename : string) : string :=
  let clean_name := os_path.basename filename in
  "uploads/" +:+ transaction_id +:+ "/" +:+ clean_name.

(** [CloudStorageService._get_aws_presigned_url] *)
Definition _get_aws_presigned_url (E : Env) (self : CloudStorageService)
    (key content_type : string) (file_size : Z) : M UploadConfig :=
  match boto3 E with
  | None => raise (ImportError "boto3 is not installed")
  | Some boto3_client =>
      do access <- setting "AWS_ACCESS_KEY_ID" (AWS_ACCESS_KEY_ID (settings E));
      do secret <- setting "AWS_SECRET_ACCESS_KEY" (AWS_SECRET_ACCESS_KEY (settings E));
      do s3_client <- lift (boto3_client access secret (AWS_S3_REGION_NAME (settings E)));
      try_except
        (do bucket <- setting "AWS_STORAGE_BUCKET_NAME" (AWS_STORAGE_BUCKET_NAME (settings E));
         do url <- lift (generate_presigned_url s3_client bucket key content_type 900);
         ret (mkUploadConfig url "PUT" [("Content-Type", content_type)] []))
        (fun e =>
           run modify (emit (LogError ("Failed to generate AWS presigned URL: " +:+ exn_str e)));
           raise e)
  end.

(** [CloudStorageService._get_gcs_signed_url] *)
Definition _get_gcs_signed_url (E : Env) (self : CloudStorageService)
    (key content_type : string) (file_size : Z) : M UploadConfig :=
  match gcs E with
  | None => raise (ImportError "google-cloud-storage is not installed")
  | Some gcs_client =>
      do client <- lift (match GS_CREDENTIALS (settings E) with
                         | Some creds =>
                             if PyStr.truthy creds then gcs_client (Some creds)
                             else gcs_client None
                         | None => gcs_client None
                         end);
      do bucket <- setting "GS_BUCKET_NAME" (GS_BUCKET_NAME (settings E));
      do url <- lift (generate_signed_url client bucket key 15 content_type);
      ret (mkUploadConfig url "PUT" [("Content-Type", content_type)] [])
  end.

(** [CloudStorageService._get_azure_sas_url] *)
Definition _get_azure_sas_url (E : Env) (self : CloudStorageService)
    (key content_type : string) : M UploadConfig :=
  match generate_blob_sas E with
  | None => raise (ImportError "azure-storage-blob is not installed")
  | Some blob_sas =>
      do account_name <- setting "AZURE_ACCOUNT_NAME" (AZURE_ACCOUNT_NAME (settings E));
      do account_key <- setting "AZURE_ACCOUNT_KEY" (AZURE_ACCOUNT_KEY (settings E));
      do container_name <- setting "AZURE_CONTAINER" (AZURE_CONTAINER (settings E));
      do sas_token <- lift (blob_sas account_name container_name key account_key
                              (now E + 15 * 60));
      let url := "https://" +:+ account_name +:+ ".blob.core.windows.net/"
                   +:+ container_name +:+ "/" +:+ key +:+ "?" +:+ sas_token in
      let headers := [("Content-Type", content_type); ("x-ms-blob-type", "BlockBlob")] in
      ret (mkUploadConfig url "PUT" headers [])
  end.

(** [CloudStorageService._get_local_upload_url] *)
Definition _get_local_upload_url (E : Env) (self : CloudStorageService)
    (transaction_id key : string) : M UploadConfig :=
  do url <- lift (reverse_local_upload E transaction_id);
  let full_url := match BASE_URL (settings E) with
                  | Some base => base +:+ url
                  | None => url
                  end in
  ret (mkUploadConfig full_url "PUT" [] []).

(** [CloudStorageService.generate_upload_config] *)
Definition generate_upload_config (E : Env) (self : CloudStorageService)
    (transaction_id filename content_type : string) (file_size : Z) : M UploadConfig :=
  let key := _generate_key self transaction_id filename in
  if String.eqb (backend self) "aws" then
    _get_aws_presigned_url E self key content_type file_size
  else if String.eqb (backend self) "gcs" then
    _get_gcs_signed_url E self key content_type file_size
  else if String.eqb (backend self) "azure" then
    _get_azure_sas_url E self key content_type
  else
    _get_local_upload_url E self transaction_id key.

(** [CloudStorageService._check_aws]:
<<
      if not boto3: return False
      s3 = boto3.client('s3', aws_access_key_id=..., aws_secret_access_key=...)
      try:
          s3.head_object(Bucket=settings.AWS_STORAGE_BUCKET_NAME, Key=key)
          return True
      except:
          return False
>> *)
Definition _check_aws (E : Env) (self : CloudStorageService) (key : string) : M bool :=
  match boto3 E with
  | None => ret false
  | Some boto3_client =>
      do access <- setting "AWS_ACCESS_KEY_ID" (AWS_ACCESS_KEY_ID (settings E));
      do secret <- setting "AWS_SECRET_ACCESS_KEY" (AWS_SECRET_ACCESS_KEY (settings E));
      do s3 <- lift (boto3_client access secret None);
      try_except
        (do bucket <- setting "AWS_STORAGE_BUCKET_NAME" (AWS_STORAGE_BUCKET_NAME (settings E));
         run modify (emit (S3HeadObject bucket key));
         run lift (head_object s3 bucket key);
         ret true)
        (fun _ => ret false)
  end.

(** [CloudStorageService.check_exists].  The class defines no [_check_local],
    so the ['default'] branch raises [AttributeError] at the attribute
    lookup. *)
Definition check_exists (E : Env) (self : CloudStorageService) (key : string) : M bool :=
  if String.eqb (backend self) "aws" then
    _check_aws E self key
  else if String.eqb (backend self) "default" then
    raise (AttributeError "'CloudStorageService' object has no attribute '_check_local'")
  else
    ret true.

(** ** The ORM calls the views make on [UploadTransaction] *)

Module objects.

(** [UploadTransaction.objects.create(user=, filename=, file_size=,
    content_type=, backend_used=)]: a fresh primary key from [uuid.uuid4],
    [object_key] empty, [status] at its default [PENDING], [created_at]
    stamped, then one INSERT. *)
Definition create (E : Env) (user : N) (filename : string) (file_size : Z)
    (content_type backend_used : string) : M UploadTransaction :=
  let obj := mkUploadTransaction (uuid4 E) user "" filename file_size
               content_type PENDING (now E) None backend_used in
  fun w =>
    match db w !! id obj with
    | Some _ => (Raise (IntegrityError "duplicate key value violates unique constraint"), w)
    | None =>
        if db_accepts E obj then (Ok obj, set_db (<[id obj := obj]> (db w)) w)
        else (Raise (DatabaseError "value rejected by the database"), w)
    end.

(** [transaction.save()] *)
Definition save (E : Env) (obj : UploadTransaction) : M unit :=
  fun w =>
    if db_accepts E obj then (Ok tt, set_db (<[id obj := obj]> (db w)) w)
    else (Raise (DatabaseError "value rejected by the database"), w).

(** [transaction.delete()] *)
Definition delete (obj : UploadTransaction) : M unit :=
  modify (fun w => set_db (base.delete (id obj) (db w)) w).

End objects.

Definition not_found_msg : string := "No UploadTransaction matches the given query.".

(** [get_object_or_404(UploadTransaction, id=transaction_id, user=user)] *)
Definition get_object_or_404 (transaction_id : uuid) (request_user : N) : M UploadTransaction :=
  fun w =>
    match db w !! transaction_id with
    | Some obj =>
        if N.eqb (user obj) request_user then (Ok obj, w)
        else (Raise (Http404 not_found_msg), w)
    | None => (Raise (Http404 not_found_msg), w)
    end.

(** [default_storage.save(name, ContentFile(content))]: on success the
    name written and the files; on an exception the files are the ones the
    storage left behind. *)
Definition default_storage_save (E : Env) (name : string) (content : list Byte.byte) : M string :=
  fun w =>
    match storage_save E (media w) name content with
    | Ok (written, files) => (Ok written, set_media files w)
    | Raise e => (Raise e, set_media (storage_left E (media w) name content) w)
    end.

(** ** [views.py] *)

(** The value of [request.data.get('transaction_id')] as the UUID column
    reads it. *)
Inductive tid_field : Type :=
| TidMissing                    (* absent, null or empty *)
| TidMalformed (raw : string)   (* present, not the text of a UUID *)
| TidUuid (u : uuid).

(** An authenticated request ([permission_classes = [IsAuthenticated]]):
    [request.user], the fields of [request.data] the views read (a JSON
    body with a string [filename], an integer [file_size] and a string
    [content_type]) and [request.body].  For [filename] and [file_size],
    [None] is a missing or null field ([request.data.get] gives [None] for
    both).  For [content_type], [None] is a missing field only, the case in
    which [get] returns its default; a body that carries [content_type] as
    null is outside this record. *)
Record Request : Type := mkRequest {
  req_user : N;
  req_filename : option string;
  req_file_size : option Z;
  req_content_type : option string;
  req_transaction_id : tid_field;
  req_body : list Byte.byte
}.

Inductive jval : Type :=
| JStr (s : string)
| JUuid (u : uuid)
| JDict (d : list (string * string)).

Record Response : Type := mkResponse {
  resp_data : list (string * jval);
  status_code : Z
}.

Definition HTTP_200_OK : Z := 200.
Definition HTTP_400_BAD_REQUEST : Z := 400.
Definition HTTP_403_FORBIDDEN : Z := 403.
Definition HTTP_404_NOT_FOUND : Z := 404.
Definition HTTP_500_INTERNAL_SERVER_ERROR : Z := 500.

Definition init_required_error : Response :=
  mkResponse [("error", JStr "filename and file_size are required")] HTTP_400_BAD_REQUEST.

(** [UploadInitView.post] *)
Definition UploadInitView_post (E : Env) (request : Request) : M Response :=
  let content_type := default "application/octet-stream" (req_content_type request) in
  match req_filename request, req_file_size request with
  | Some filename, Some file_size =>
      if negb (PyStr.truthy filename) || (file_size =? 0) then ret init_required_error
      else
        do transaction <- objects.create E (req_user request) filename file_size
                            content_type (configured_backend E);
        let service := CloudStorageService_init E in
        try_except
          (do config <- generate_upload_config E service (Uuid.str (id transaction))
                          filename content_type file_size;
           let transaction :=
             set_object_key ("uploads/" +:+ Uuid.str (id transaction) +:+ "/"
                               +:+ os_path.basename filename) transaction in
           run objects.save E transaction;
           ret (mkResponse [("upload_url", JStr (url config));
                            ("method", JStr (method config));
                            ("headers", JDict (headers config));
                            ("transaction_id", JUuid (id transaction))] HTTP_200_OK))
          (fun e =>
             run modify (emit (LogError ("Upload Init Failed: " +:+ exn_str e)));
             run objects.delete transaction;
             ret (mkResponse [("error", JStr (exn_str e))] HTTP_500_INTERNAL_SERVER_ERROR))
  | _, _ => ret init_required_error
  end.

Definition complete_success (t : UploadTransaction) : Response :=
  mkResponse [("status", JStr "success"); ("file_url", JStr (object_key t))] HTTP_200_OK.

Definition complete_not_in_storage : Response :=
  mkResponse [("error", JStr "File not found in storage")] HTTP_404_NOT_FOUND.

(** [UploadCompleteView.post] *)
Definition UploadCompleteView_post (E : Env) (request : Request) : M Response :=
  match req_transaction_id request with
  | TidMissing =>
      ret (mkResponse [("error", JStr "transaction_id required")] HTTP_400_BAD_REQUEST)
  | TidMalformed raw =>
      raise (ValidationError ("'" +:+ raw +:+ "' is not a valid UUID."))
  | TidUuid transaction_id =>
      do transaction <- get_object_or_404 transaction_id (req_user request);
      let service := CloudStorageService_init E in
      do found <- check_exists E service (object_key transaction);
      if found then
        let transaction := set_status COMPLETED transaction in
        let transaction := set_completed_at (Some (now E)) transaction in
        run objects.save E transaction;
        ret (complete_success transaction)
      else
        ret complete_not_in_storage
  end.

Definition uploaded_response : Response :=
  mkResponse [("status", JStr "uploaded")] HTTP_200_OK.

(** [LocalUploadView.handle_upload] ([put] and [post] both call it).  The
    size comparison is there and its body is [pass]. *)
Definition LocalUploadView_handle_upload (E : Env) (request : Request)
    (transaction_id : uuid) : M Response :=
  if negb (String.eqb (configured_backend E) "local") then
    ret (mkResponse [("error", JStr "Local upload not enabled")] HTTP_403_FORBIDDEN)
  else
    do transaction <- get_object_or_404 transaction_id (req_user request);
    let file_data := req_body request in
    run (if negb (Z.of_nat (length file_data) =? file_size transaction)
         then ret tt (* pass *)
         else ret tt);
    do path <- default_storage_save E (object_key transaction) file_data;
    ret uploaded_response.

Definition LocalUploadView_put := LocalUploadView_handle_upload.
Definition LocalUploadView_post := LocalUploadView_handle_upload.

(** What the client receives: the framework turns an [Http404] escaping a
    view into a 404 response carrying its message, and any other escaping
    exception into a 500. *)
Definition dispatch (view : M Response) : World → Response * World :=
  fun w =>
    match view w with
    | (Ok r, w') => (r, w')
    | (Raise (Http404 msg), w') => (mkResponse [("detail", JStr msg)] HTTP_404_NOT_FOUND, w')
    | (Raise _, w') => (mkResponse [] HTTP_500_INTERNAL_SERVER_ERROR, w')
    end.

(** ** [urls.py] *)

Inductive http_method : Type := GET | POST | PUT | PATCH | DELETE.

Definition method_name (m : http_method) : string :=
  match m with
  | GET => "GET" | POST => "POST" | PUT => "PUT" | PATCH => "PATCH" | DELETE => "DELETE"
  end.

(** The three entries of [urlpatterns], after the path has been matched:
    ['init/'], ['complete/'] and ['local/<uuid:transaction_id>/']. *)
Inductive route : Type :=
| upload_init
| upload_complete
| local_upload (transaction_id : uuid).

Definition HTTP_405_METHOD_NOT_ALLOWED : Z := 405.

(** The double-quote character, as a string. *)
Definition dquote : string := String (Ascii.ascii_of_nat 34) EmptyString.

(** [View.as_view()] of the class behind a route: the handler named after
    the HTTP method, and 405 where the class defines none. *)
Definition as_view (E : Env) (r : route) (m : http_method) (request : Request) : M Response :=
  match r, m with
  | upload_init, POST => UploadInitView_post E request
  | upload_complete, POST => UploadCompleteView_post E request
  | local_upload transaction_id, PUT => LocalUploadView_put E request transaction_id
  | local_upload transaction_id, POST => LocalUploadView_post E request transaction_id
  | _, _ =>
      ret (mkResponse [("detail", JStr ("Method " +:+ dquote +:+ method_name m +:+ dquote
                                          +:+ " not allowed."))]
             HTTP_405_METHOD_NOT_ALLOWED)
  end.

(** ** Vocabulary of the statements *)

(** Every character of [s] satisfies [P]. *)
Fixpoint all_chars (P : ascii → bool) (s : string) : bool :=
  match s with
  | EmptyString => true
  | String c s' => P c && all_chars P s'
  end.

(** The characters [UUID.__str__] writes: lower-case hex digits and ['-']. *)
Definition uuid_char (c : ascii) : bool :=
  PyStr.contains c "0123456789abcdef-".

(** A string with its hyphens dropped. *)
Fixpoint unhyphen (s : string) : string :=
  match s with
  | EmptyString => EmptyString
  | String c s' => if Ascii.eqb c "-" then unhyphen s' else String c (unhyphen s')
  end.

(** Lower-case hex digits. *)
Definition hex_char (c : ascii) : bool := PyStr.contains c "0123456789abcdef".

(** Whether a key has a [..] segment between its separators. *)
Definition has_traversal_segment (key : string) : bool :=
  existsb (String.eqb "..") (PyStr.split os_path.sep key).

(** The row [complete] writes once the check answered [True]. *)
Definition completed_row (E : Env) (t : UploadTransaction) : UploadTransaction :=
  set_completed_at (Some (now E)) (set_status COMPLETED t).

(** The row [objects.create] inserts for a request. *)
Definition new_row (E : Env) (request : Request) (fn : string) (sz : Z) : UploadTransaction :=
  mkUploadTransaction (uuid4 E) (req_user request) "" fn sz
    (default "application/octet-stream" (req_content_type request))
    PENDING (now E) None (configured_backend E).

(** The same row once the view has set [object_key] on it. *)
Definition keyed_row (E : Env) (request : Request) (fn : string) (sz : Z) : UploadTransaction :=
  set_object_key ("uploads/" +:+ Uuid.str (uuid4 E) +:+ "/" +:+ os_path.basename fn)
    (new_row E request fn sz).

(** The world right after [objects.create] succeeded. *)
Definition after_create (E : Env) (request : Request) (fn : string) (sz : Z) (w : World) : World :=
  set_db (<[uuid4 E := new_row E request fn sz]> (db w)) w.

(** [not filename or not file_size] *)
Definition init_fields_missing (request : Request) : bool :=
  from_option (fun fn => negb (PyStr.truthy fn)) true (req_filename request)
  || from_option (fun sz => sz =? 0) true (req_file_size request).

(** What [Storage.save] promises in Django, for the storage of an
    environment: a save that returns has written exactly the content it was
    given, under the name it returns; that name was not in use; and it is
    the requested name whenever the requested name was free. *)
Definition storage_keeps_content (E : Env) : Prop :=
  ∀ files name content written files',
    storage_save E files name content = Ok (written, files') →
    files' = <[written := content]> files ∧
    files !! written = None ∧
    (files !! name = None → written = name).

(** Every row sits under its own primary key. *)
Definition keyed_by_id (d : gmap N UploadTransaction) : Prop :=
  ∀ k t, d !! k = Some t → id t = k.

(** A row carries a completion time exactly when it is Completed. *)
Definition stamped_iff_completed (d : gmap N UploadTransaction) : Prop :=
  ∀ k t, d !! k = Some t → (status t = COMPLETED ↔ is_Some (completed_at t)).

(** The ways one request changes the table: not at all, by inserting the
    new keyed row under a fresh id, or by writing back a fetched row marked
    Completed. *)
Definition table_step (E : Env) (request : Request)
    (d d' : gmap N UploadTransaction) : Prop :=
  d' = d ∨
  (d !! uuid4 E = None ∧ ∃ fn sz, d' = <[uuid4 E := keyed_row E request fn sz]> d) ∨
  (∃ tid t, d !! tid = Some t ∧ d' = <[id t := completed_row E t]> d).

(** Every row's object key is the one derived from its id and filename. *)
Definition keys_derived (d : gmap N UploadTransaction) : Prop :=
  ∀ k t, d !! k = Some t →
         object_key t = _generate_key (mkCloudStorageService "local") (Uuid.str k) (filename t).

(** ** Concrete environments for the worked runs *)

Module Fixtures.

Definition no_settings : Settings :=
  mkSettings None None None None None None None None None None None.

(** The first name not in use among [cand], [cand_], [cand__], ... (at most
    [fuel] underscores). *)
Fixpoint first_free (files : gmap string (list Byte.byte)) (cand : string)
    (fuel : nat) : option string :=
  match files !! cand with
  | None => Some cand
  | Some _ =>
      match fuel with
      | O => None
      | S fuel' => first_free files (cand +:+ "_") fuel'
      end
  end.

(** An in-memory storage in the manner of Django's: the content is written
    under the requested name when that name is free and under another free
    name when it is taken, and the name written is returned. *)
Definition memory_storage_save (files : gmap string (list Byte.byte)) (name : string)
    (content : list Byte.byte) : result (string * gmap string (list Byte.byte)) :=
  match first_free files name (size files) with
  | Some written => Ok (written, <[written := content]> files)
  | None => Raise (OSError "no free name")
  end.

(** It leaves nothing behind when it raises. *)
Definition memory_storage_left (files : gmap string (list Byte.byte)) (name : string)
    (content : list Byte.byte) : gmap string (list Byte.byte) := files.

(** A disk that fills up: every save raises after the first byte of the
    content has been written under the requested name. *)
Definition full_disk_save (files : gmap string (list Byte.byte)) (name : string)
    (content : list Byte.byte) : result (string * gmap string (list Byte.byte)) :=
  Raise (OSError "[Errno 28] No space left on device").

Definition full_disk_left (files : gmap string (list Byte.byte)) (name : string)
    (content : list Byte.byte) : gmap string (list Byte.byte) :=
  <[name := take 1 content]> files.

(** [n] lower-case hex digits at the head of [s], and what follows them. *)
Fixpoint take_hex (n : nat) (s : string) : option string :=
  match n with
  | O => Some s
  | S n' =>
      match s with
      | String c s' => if hex_char c then take_hex n' s' else None
      | EmptyString => None
      end
  end.

Definition take_dash (s : string) : option string :=
  match s with
  | String c s' => if Ascii.eqb c "-" then Some s' else None
  | EmptyString => None
  end.

(** What the [uuid] path converter accepts: 8-4-4-4-12 lower-case hex. *)
Definition is_uuid_text (s : string) : bool :=
  let step (rest : option string) (f : string → option string) :=
    match rest with Some r => f r | None => None end in
  match fold_left step
          [take_hex 8; take_dash; take_hex 4; take_dash; take_hex 4; take_dash;
           take_hex 4; take_dash; take_hex 12] (Some s) with
  | Some EmptyString => true
  | _ => false
  end.

(** [reverse('api:local-upload', ...)] with the [api] namespace mounted at
    [/api/upload/]: the route [local/<uuid:transaction_id>/], which does not
    match an id that is not the text of a UUID. *)
Definition reverse_under_api (tid : string) : result string :=
  if is_uuid_text tid then Ok ("/api/upload/local/" +:+ tid +:+ "/")
  else Raise (NoReverseMatch
                ("Reverse for 'local-upload' with keyword arguments '{'transaction_id': '"
                   +:+ tid +:+ "'}' not found.")).

(** No [STORAGE_BACKEND] setting (so ['local']), no SDK installed. *)
Definition local_env (fresh : uuid) : Env :=
  mkEnv no_settings None None None reverse_under_api memory_storage_save memory_storage_left
    (fun _ => true) fresh 1700000000.

(** An S3 client over a bucket where exactly the keys in [present] exist. *)
Definition s3_over (present : list string) : S3Client :=
  mkS3Client
    (fun bucket key _ _ => Ok ("https://" +:+ bucket +:+ ".s3.amazonaws.com/" +:+ key))
    (fun _ key => if bool_decide (key ∈ present) then Ok tt
                  else Raise (VendorError "An error occurred (404) when calling the HeadObject operation: Not Found")).

Definition aws_settings : Settings :=
  mkSettings (Some "aws") None (Some "AKIA") (Some "secret") None (Some "bucket")
    None None None None None.

Definition aws_env (present : list string) (fresh : uuid) : Env :=
  mkEnv aws_settings (Some (fun _ _ _ => Ok (s3_over present))) None None
    reverse_under_api memory_storage_save memory_storage_left
    (fun _ => true) fresh 1700000000.

(** An S3 client whose signing call raises. *)
Definition s3_unsigned : S3Client :=
  mkS3Client (fun _ _ _ _ => Raise (VendorError "Unable to locate credentials"))
             (fun _ _ => Raise (VendorError "Unable to locate credentials")).

Definition aws_unsigned_env (fresh : uuid) : Env :=
  mkEnv aws_settings (Some (fun _ _ _ => Ok s3_unsigned)) None None
    reverse_under_api memory_storage_save memory_storage_left
    (fun _ => true) fresh 1700000000.

(** The local backend over the disk that fills up. *)
Definition full_disk_env (fresh : uuid) : Env :=
  mkEnv no_settings None None None reverse_under_api full_disk_save full_disk_left
    (fun _ => true) fresh 1700000000.

(** [STORAGE_BACKEND] set to a name no branch knows. *)
Definition named_env (name : string) (fresh : uuid) : Env :=
  mkEnv (mkSettings (Some name) None None None None None None None None None None)
    None None None reverse_under_api memory_storage_save memory_storage_left
    (fun _ => true) fresh 1700000000.

(** [STORAGE_BACKEND = 'gcs'] on a host where google-cloud-storage is not
    installed. *)
Definition gcs_env (fresh : uuid) : Env :=
  mkEnv (mkSettings (Some "gcs") None None None None None None (Some "bucket") None None None)
    None None None reverse_under_api memory_storage_save memory_storage_left
    (fun _ => true) fresh 1700000000.

Definition empty_world : World := mkWorld ∅ ∅ [].

Definition init_request (owner : N) (filename : string) (file_size : Z) : Request :=
  mkRequest owner (Some filename) (Some file_size) None TidMissing [].

Definition complete_request (owner : N) (tid : uuid) : Request :=
  mkRequest owner None None None (TidUuid tid) [].

Definition upload_request (owner : N) (body : list Byte.byte) : Request :=
  mkRequest owner None None None TidMissing body.

(** A table holding one transaction, nothing in the media storage. *)
Definition one_row_world (t : UploadTransaction) : World :=
  mkWorld {[ id t := t ]} ∅ [].

Definition sample_row (st : Status) (done_at : option Z) (backend_name : string) : UploadTransaction :=
  mkUploadTransaction 1%N 7%N "uploads/00000000-0000-0000-0000-000000000001/report.pdf"
    "report.pdf" 1024 "application/pdf" st 1699999000 done_at backend_name.

End Fixtures.

Import Fixtures.

(** * Properties *)

(** ** Strings and [os.path.basename] *)

Section Basename.

Import PyStr os_path.

Lemma append_nil (b : string) : "" +:+ b = b.
Proof. reflexivity. Qed.

Lemma append_cons (c : ascii) (a b : string) : String c a +:+ b = String c (a +:+ b).
Proof. reflexivity. Qed.

Lemma rfind_absent c s : contains c s = false → rfind c s = -1.
Proof.
  induction s as [|d s IH]; simpl; [done|].
  intros [Hd Hs]%orb_false_iff. rewrite (IH Hs). simpl. by rewrite Hd.
Qed.

Lemma rfind_present c s : contains c s = true → 0 ≤ rfind c s.
Proof.
  induction s as [|d s IH]; simpl; [done|].
  destruct (contains c s) eqn:Hs.
  - intros _. specialize (IH eq_refl).
    destruct (0 <=? rfind c s) eqn:Hr; lia.
  - rewrite (rfind_absent _ _ Hs). simpl. rewrite orb_false_r.
    intros ->. lia.
Qed.

(** [basename] unfolded one character at a time. *)
Lemma basename_cons c s :
  basename (String c s) =
    if contains sep s then basename s
    else if Ascii.eqb c sep then s else String c s.
Proof.
  unfold basename. simpl rfind.
  destruct (contains sep s) eqn:Hs.
  - pose proof (rfind_present _ _ Hs) as Hr.
    destruct (0 <=? rfind sep s) eqn:Hle; [|lia].
    replace (Z.to_nat (rfind sep s + 1 + 1)) with (S (Z.to_nat (rfind sep s + 1))) by lia.
    reflexivity.
  - rewrite (rfind_absent _ _ Hs). simpl.
    destruct (Ascii.eqb c sep); reflexivity.
Qed.

Lemma basename_no_sep p : contains sep (basename p) = false.
Proof.
  induction p as [|c p IH]; [done|].
  rewrite basename_cons.
  destruct (contains sep p) eqn:Hp; [done|].
  destruct (Ascii.eqb c sep) eqn:Hc; [done|].
  simpl. by rewrite Hc, Hp.
Qed.

(** [basename p] is what follows the last separator of [p]. *)
Lemma basename_tail p :
  ∃ dir, p = dir +:+ basename p ∧
         (dir = "" ∨ ∃ d, dir = d +:+ "/").
Proof.
  induction p as [|c p (dir & Hp & Hdir)].
  - exists "". split; [done|by left].
  - rewrite basename_cons.
    destruct (contains sep p) eqn:Hs.
    + exists (String c dir). split; [rewrite append_cons; by f_equal|].
      right. destruct Hdir as [->|[d ->]].
      * exfalso. rewrite append_nil in Hp.
        pose proof (basename_no_sep p) as Hn. rewrite <- Hp in Hn. congruence.
      * by exists (String c d).
    + destruct (Ascii.eqb_spec c sep) as [->|Hc].
      * exists "/". split; [done|]. right. by exists "".
      * exists "". split; [done|by left].
Qed.

Lemma basename_flat p : contains sep p = false → basename p = p.
Proof.
  destruct p as [|c p]; [done|]. rewrite basename_cons. simpl.
  intros [Hc Hp]%orb_false_iff. by rewrite Hp, Hc.
Qed.

Lemma contains_app c a b : contains c (a +:+ b) = contains c a || contains c b.
Proof.
  induction a as [|d a IH]; [done|].
  rewrite append_cons. simpl. by rewrite IH, orb_assoc.
Qed.

(** A separator followed by a separator-free tail marks the end of the
    directory part unambiguously. *)
Lemma split_last_sep_inj a a' b b' :
  contains sep b = false → contains sep b' = false →
  a +:+ "/" +:+ b = a' +:+ "/" +:+ b' → a = a' ∧ b = b'.
Proof.
  intros Hb Hb'. revert a'.
  induction a as [|c a IH]; intros [|c' a'];
    rewrite ?append_cons, ?append_nil; intros Heq.
  - by inversion Heq.
  - inversion Heq as [[Hc Hrest]]. subst b.
    rewrite contains_app in Hb. simpl in Hb. by rewrite orb_true_r in Hb.
  - inversion Heq as [[Hc Hrest]]. subst b'.
    rewrite contains_app in Hb'. simpl in Hb'. by rewrite orb_true_r in Hb'.
  - inversion Heq as [[Hc Hrest]]. destruct (IH _ Hrest) as [-> ->]. done.
Qed.

End Basename.

Lemma split_nonempty c s : PyStr.split c s ≠ [].
Proof.
  destruct s as [|d s]; simpl; [done|].
  destruct (Ascii.eqb d c); [done|]. by destruct (PyStr.split c s).
Qed.

Lemma split_flat c s : PyStr.contains c s = false → PyStr.split c s = [s].
Proof.
  induction s as [|d s IH]; simpl; [done|].
  intros [Hd Hs]%orb_false_iff. by rewrite Hd, (IH Hs).
Qed.

Lemma split_app_sep c a b :
  PyStr.split c (a +:+ String c b) = (PyStr.split c a ++ PyStr.split c b)%list.
Proof.
  induction a as [|d a IH].
  - rewrite append_nil. simpl. by rewrite Ascii.eqb_refl.
  - rewrite append_cons. simpl. rewrite IH.
    destruct (Ascii.eqb d c); [done|].
    pose proof (split_nonempty c a). by destruct (PyStr.split c a).
Qed.

(** ** The text of a UUID *)

Lemma all_chars_app P a b : all_chars P (a +:+ b) = all_chars P a && all_chars P b.
Proof.
  induction a as [|c a IH]; [done|].
  rewrite append_cons. simpl. by rewrite IH, andb_assoc.
Qed.

Lemma all_chars_slice_from P n s :
  all_chars P s = true → all_chars P (PyStr.slice_from n s) = true.
Proof.
  revert s. induction n as [|n IH]; intros [|c s]; simpl; try done.
  intros [_ Hs]%andb_prop. by apply IH.
Qed.

Lemma all_chars_slice_to P n s :
  all_chars P s = true → all_chars P (PyStr.slice_to n s) = true.
Proof.
  revert s. induction n as [|n IH]; intros [|c s]; simpl; try done.
  intros [Hc Hs]%andb_prop. by rewrite Hc, IH.
Qed.

Lemma all_chars_excludes P c s :
  all_chars P s = true → P c = false → PyStr.contains c s = false.
Proof.
  intros Hall Hc. induction s as [|d s IH]; simpl; [done|].
  simpl in Hall. apply andb_prop in Hall as [Hd Hs].
  rewrite (IH Hs), orb_false_r.
  destruct (Ascii.eqb_spec d c); [congruence|done].
Qed.

Lemma hex_digit_uuid_char d : uuid_char (Uuid.hex_digit d) = true.
Proof. unfold Uuid.hex_digit. repeat case_match; reflexivity. Qed.

Lemma hex_fixed_uuid_chars n v : all_chars uuid_char (Uuid.hex_fixed n v) = true.
Proof.
  revert v. induction n as [|n IH]; intros v; simpl; [done|].
  rewrite all_chars_app, IH. simpl. by rewrite hex_digit_uuid_char.
Qed.

Lemma uuid_str_chars u : all_chars uuid_char (Uuid.str u) = true.
Proof.
  unfold Uuid.str. cbv zeta.
  rewrite !all_chars_app.
  rewrite !all_chars_slice_to, !all_chars_slice_from;
    auto using all_chars_slice_from, hex_fixed_uuid_chars.
Qed.

Lemma unhyphen_app a b : unhyphen (a +:+ b) = unhyphen a +:+ unhyphen b.
Proof.
  induction a as [|c a IH]; [done|].
  rewrite append_cons. simpl. rewrite IH. by destruct (Ascii.eqb c "-").
Qed.

Lemma unhyphen_hex s : all_chars hex_char s = true → unhyphen s = s.
Proof.
  induction s as [|c s IH]; simpl; [done|].
  intros [Hc Hs]%andb_prop. rewrite (IH Hs).
  destruct (Ascii.eqb_spec c "-") as [->|]; [discriminate Hc|done].
Qed.

Lemma hex_digit_hex_char d : hex_char (Uuid.hex_digit d) = true.
Proof. unfold Uuid.hex_digit. repeat case_match; reflexivity. Qed.

Lemma hex_fixed_hex_chars n v : all_chars hex_char (Uuid.hex_fixed n v) = true.
Proof.
  revert v. induction n as [|n IH]; intros v; simpl; [done|].
  rewrite all_chars_app, IH. simpl. by rewrite hex_digit_hex_char.
Qed.

Lemma slice_to_from n s : PyStr.slice_to n s +:+ PyStr.slice_from n s = s.
Proof.
  revert s. induction n as [|n IH]; intros [|c s]; simpl; try done.
  rewrite append_cons. by rewrite IH.
Qed.

Lemma slice_from_from a k s :
  PyStr.slice_from k (PyStr.slice_from a s) = PyStr.slice_from (a + k) s.
Proof.
  revert s. induction a as [|a IH]; intros s; simpl; [done|].
  destruct s as [|c s]; [by destruct k|]. apply IH.
Qed.

(** One group of [UUID.__str__] followed by the rest of the digits. *)
Lemma slice_group a b s :
  (a ≤ b)%nat →
  PyStr.slice_to (b - a) (PyStr.slice_from a s) +:+ PyStr.slice_from b s
  = PyStr.slice_from a s.
Proof.
  intros Hab. replace (PyStr.slice_from b s)
    with (PyStr.slice_from (b - a) (PyStr.slice_from a s)).
  - apply slice_to_from.
  - rewrite slice_from_from. f_equal. lia.
Qed.

Lemma unhyphen_uuid_str u : unhyphen (Uuid.str u) = Uuid.hex_fixed 32 u.
Proof.
  unfold Uuid.str. cbv zeta.
  set (hex := Uuid.hex_fixed 32 u).
  assert (Hhex : ∀ n, all_chars hex_char (PyStr.slice_from n hex) = true)
    by (intros n; apply all_chars_slice_from, hex_fixed_hex_chars).
  rewrite !unhyphen_app.
  rewrite !(unhyphen_hex (PyStr.slice_to _ _)) by (apply all_chars_slice_to, Hhex).
  rewrite (unhyphen_hex (PyStr.slice_from 20 hex)) by apply Hhex.
  change (unhyphen "-") with "". rewrite !append_nil.
  rewrite (slice_group 16 20), (slice_group 12 16), (slice_group 8 12),
    (slice_group 0 8) by lia.
  reflexivity.
Qed.

Lemma length_append (a b : string) :
  String.length (a +:+ b) = (String.length a + String.length b)%nat.
Proof. induction a as [|c a IH]; [done|]. rewrite append_cons. simpl. by rewrite IH. Qed.

Lemma length_hex_fixed n v : String.length (Uuid.hex_fixed n v) = n.
Proof.
  revert v. induction n as [|n IH]; intros v; simpl; [done|].
  rewrite length_append, IH. simpl. lia.
Qed.

Lemma append_inj_length a a' b b' :
  String.length a = String.length a' → a +:+ b = a' +:+ b' → a = a' ∧ b = b'.
Proof.
  revert a'. induction a as [|c a IH]; intros [|c' a']; simpl; try done.
  intros [= Hlen]. rewrite !append_cons. intros [= -> Heq].
  by destruct (IH _ Hlen Heq) as [-> ->].
Qed.

Lemma hex_digit_inj d e :
  (d < 16)%N → (e < 16)%N → Uuid.hex_digit d = Uuid.hex_digit e → d = e.
Proof.
  intros Hd He.
  assert (Hcases : ∀ x, (x < 16)%N →
            x ∈ [0; 1; 2; 3; 4; 5; 6; 7; 8; 9; 10; 11; 12; 13; 14; 15]%N).
  { intros x Hx. rewrite !elem_of_cons. lia. }
  pose proof (Hcases d Hd) as Hd'. pose proof (Hcases e He) as He'.
  rewrite !elem_of_cons, elem_of_nil in Hd', He'.
  intros Heq.
  repeat (destruct Hd' as [->|Hd']); try done;
    repeat (destruct He' as [->|He']); try done; discriminate Heq.
Qed.

Lemma hex_fixed_inj n u v :
  Uuid.hex_fixed n u = Uuid.hex_fixed n v → (u mod 16 ^ N.of_nat n = v mod 16 ^ N.of_nat n)%N.
Proof.
  revert u v. induction n as [|n IH]; intros u v.
  - intros _. by rewrite !N.mod_1_r.
  - simpl Uuid.hex_fixed. intros Heq.
    apply append_inj_length in Heq as [Hhi Hlo]; [|by rewrite !length_hex_fixed].
    apply IH in Hhi. injection Hlo as Hlo.
    apply hex_digit_inj in Hlo; [|by apply N.mod_lt..].
    rewrite Nat2N.inj_succ, N.pow_succ_r'.
    rewrite !N.Div0.mod_mul_r. by rewrite Hhi, Hlo.
Qed.

(** Two UUIDs (integers below [2 ^ 128]) with the same text are equal. *)
Lemma uuid_str_inj u v :
  (u < 2 ^ 128)%N → (v < 2 ^ 128)%N → Uuid.str u = Uuid.str v → u = v.
Proof.
  intros Hu Hv Heq.
  apply (f_equal unhyphen) in Heq. rewrite !unhyphen_uuid_str in Heq.
  apply hex_fixed_inj in Heq.
  change (16 ^ N.of_nat 32)%N with (2 ^ 128)%N in Heq.
  by rewrite !N.mod_small in Heq.
Qed.

Lemma uuid_str_no_traversal u : PyStr.split os_path.sep (Uuid.str u) = [Uuid.str u] ∧ Uuid.str u ≠ "..".
Proof.
  pose proof (uuid_str_chars u) as Hall. split.
  - apply split_flat. by apply (all_chars_excludes uuid_char).
  - intros Heq. rewrite Heq in Hall. discriminate Hall.
Qed.

(** ** Key derivation *)

Lemma generate_key_shape self tid fn :
  _generate_key self tid fn = "uploads/" +:+ tid +:+ "/" +:+ os_path.basename fn.
Proof. reflexivity. Qed.

Lemma uploads_prefix_inj (a b : string) : "uploads/" +:+ a = "uploads/" +:+ b → a = b.
Proof. intros H. by inversion H. Qed.

(** The segments of a derived key: [uploads], those of the id, and the
    basename. *)
Lemma generate_key_segments self tid fn :
  PyStr.split os_path.sep (_generate_key self tid fn) =
    ("uploads" :: PyStr.split os_path.sep tid ++ [os_path.basename fn])%list.
Proof.
  rewrite generate_key_shape.
  change ("uploads/" +:+ tid +:+ "/" +:+ os_path.basename fn)
    with ("uploads" +:+ String os_path.sep (tid +:+ String os_path.sep (os_path.basename fn))).
  rewrite !split_app_sep. by rewrite (split_flat _ (os_path.basename fn)) by apply basename_no_sep.
Qed.

Lemma generate_key_traversal self tid fn :
  has_traversal_segment (_generate_key self tid fn) =
    has_traversal_segment tid || String.eqb ".." (os_path.basename fn).
Proof.
  unfold has_traversal_segment. rewrite generate_key_segments.
  cbn [existsb]. rewrite existsb_app. cbn [existsb].
  change (String.eqb ".." "uploads") with false.
  by rewrite orb_false_r.
Qed.

(** C6. Key derivation depends on nothing but its two arguments: the same
    [(transaction_id, filename)] gives the same key on every service
    instance, whatever its backend; and two distinct transaction ids never
    give the same key, whatever the two filenames are.  This holds for ids
    given as arbitrary strings, and for ids given as UUIDs and rendered by
    [str] as the view does. *)
Theorem generate_key_deterministic_injective :
  ∀ (self self' : CloudStorageService) (tid1 tid2 fn1 fn2 : string),
    _generate_key self tid1 fn1 = _generate_key self' tid1 fn1 ∧
    (tid1 ≠ tid2 → _generate_key self tid1 fn1 ≠ _generate_key self' tid2 fn2) ∧
    (∀ u v : uuid,
       (u < 2 ^ 128)%N → (v < 2 ^ 128)%N → u ≠ v →
       _generate_key self (Uuid.str u) fn1 ≠ _generate_key self' (Uuid.str v) fn2).
Proof.
  intros self self' tid1 tid2 fn1 fn2.
  assert (Hinj : ∀ a b, a ≠ b → _generate_key self a fn1 ≠ _generate_key self' b fn2).
  { intros a b Hne Heq. rewrite !generate_key_shape in Heq.
    apply uploads_prefix_inj in Heq.
    apply split_last_sep_inj in Heq as [? _]; auto using basename_no_sep. }
  split; [reflexivity|]. split; [apply Hinj|].
  intros u v Hu Hv Hne. apply Hinj. intros Heq. by apply Hne, uuid_str_inj.
Qed.

Lemma generate_key_deterministic_injective_witness :
  _generate_key (mkCloudStorageService "aws") "7d9c" "a/report.pdf" ≠
  _generate_key (mkCloudStorageService "local") "7d9d" "report.pdf" ∧
  _generate_key (mkCloudStorageService "aws") (Uuid.str 1%N) "a/report.pdf" ≠
  _generate_key (mkCloudStorageService "local") (Uuid.str 2%N) "report.pdf".
Proof.
  pose proof (generate_key_deterministic_injective
                (mkCloudStorageService "aws") (mkCloudStorageService "local")
                "7d9c" "7d9d" "a/report.pdf" "report.pdf") as (_ & Hstr & Huuid).
  split.
  - apply Hstr. discriminate.
  - apply (Huuid 1%N 2%N); [reflexivity | reflexivity | discriminate].
Defined.

(** ** Unfolding the effectful code *)

Ltac unfold_monad :=
  unfold setting in *;
  unfold bind, ret, raise, lift, try_except, modify, get_world in *.

Ltac unfold_storage :=
  unfold generate_upload_config, _get_aws_presigned_url, _get_gcs_signed_url,
    _get_azure_sas_url, _get_local_upload_url, check_exists, _check_aws in *.

(** Issuing a grant writes nothing but log lines. *)
Lemma generate_upload_config_frame E self tid fn ct sz w :
  db (generate_upload_config E self tid fn ct sz w).2 = db w ∧
  media (generate_upload_config E self tid fn ct sz w).2 = media w.
Proof.
  unfold_storage; unfold_monad.
  repeat case_match; simplify_eq/=; done.
Qed.

(** The existence check writes nothing but the probe it sends. *)
Lemma check_exists_frame E self key w :
  db (check_exists E self key w).2 = db w ∧
  media (check_exists E self key w).2 = media w.
Proof.
  unfold_storage; unfold_monad.
  repeat case_match; simplify_eq/=; done.
Qed.

(** Outside ['aws'] and ['default'] the dispatcher falls through to
    [return True]: no probe, no file lookup, the world is untouched. *)
Lemma check_exists_unhandled E self key w :
  backend self ≠ "aws" → backend self ≠ "default" →
  check_exists E self key w = (Ok true, w).
Proof.
  intros Haws Hdef. unfold check_exists.
  destruct (String.eqb_spec (backend self) "aws"); [done|].
  destruct (String.eqb_spec (backend self) "default"); [done|].
  reflexivity.
Qed.

(** The ['aws'] branch answers [True] only after a [head_object] call that
    returned; a probe that raises is answered [False]. *)
Lemma check_aws_true_only_if_probe_ok E self key w w' :
  _check_aws E self key w = (Ok true, w') →
  ∃ client access secret s3 bucket,
    boto3 E = Some client ∧ client access secret None = Ok s3 ∧
    AWS_STORAGE_BUCKET_NAME (settings E) = Some bucket ∧
    head_object s3 bucket key = Ok tt ∧
    w' = emit (S3HeadObject bucket key) w.
Proof.
  unfold _check_aws; unfold_monad. intros H.
  repeat case_match; simplify_eq/=.
  match goal with u : unit |- _ => destruct u end.
  eauto 10.
Qed.

Lemma check_aws_probe_error E self key w client access secret s3 bucket e :
  boto3 E = Some client →
  AWS_ACCESS_KEY_ID (settings E) = Some access →
  AWS_SECRET_ACCESS_KEY (settings E) = Some secret →
  client access secret None = Ok s3 →
  AWS_STORAGE_BUCKET_NAME (settings E) = Some bucket →
  head_object s3 bucket key = Raise e →
  _check_aws E self key w = (Ok false, emit (S3HeadObject bucket key) w).
Proof.
  intros Hb Ha Hs Hc Hbk Hh. unfold _check_aws; unfold_monad.
  by rewrite Hb, Ha, Hs, Hc, Hbk, Hh.
Qed.

Lemma check_aws_probe_ok E self key w client access secret s3 bucket :
  boto3 E = Some client →
  AWS_ACCESS_KEY_ID (settings E) = Some access →
  AWS_SECRET_ACCESS_KEY (settings E) = Some secret →
  client access secret None = Ok s3 →
  AWS_STORAGE_BUCKET_NAME (settings E) = Some bucket →
  head_object s3 bucket key = Ok tt →
  _check_aws E self key w = (Ok true, emit (S3HeadObject bucket key) w).
Proof.
  intros Hb Ha Hs Hc Hbk Hh. unfold _check_aws; unfold_monad.
  by rewrite Hb, Ha, Hs, Hc, Hbk, Hh.
Qed.

(** [UploadCompleteView.post] on a transaction the caller owns: the check
    runs on the stored key, whatever the row's status, and its answer
    decides the outcome. *)
Lemma complete_post_owned E request tid t w :
  req_transaction_id request = TidUuid tid →
  db w !! tid = Some t → user t = req_user request →
  UploadCompleteView_post E request w =
    match check_exists E (CloudStorageService_init E) (object_key t) w with
    | (Ok true, w1) =>
        if db_accepts E (completed_row E t)
        then (Ok (complete_success (completed_row E t)),
              set_db (<[id t := completed_row E t]> (db w1)) w1)
        else (Raise (DatabaseError "value rejected by the database"), w1)
    | (Ok false, w1) => (Ok complete_not_in_storage, w1)
    | (Raise e, w1) => (Raise e, w1)
    end.
Proof.
  intros Htid Hdb Hu. unfold UploadCompleteView_post. rewrite Htid.
  unfold bind at 1. unfold get_object_or_404. rewrite Hdb, Hu, N.eqb_refl.
  unfold bind at 1.
  destruct (check_exists _ _ _ w) as [[[|]|e] w1]; [|done|done].
  unfold_monad. unfold objects.save, completed_row.
  by destruct (db_accepts E _).
Qed.

(** ** [UploadInitView.post], step by step *)

Lemma init_post_rejected E request w :
  init_fields_missing request = true →
  UploadInitView_post E request w = (Ok init_required_error, w).
Proof.
  unfold init_fields_missing, UploadInitView_post.
  destruct (req_filename request) as [fn|], (req_file_size request) as [sz|];
    simpl; try done.
  intros ->. done.
Qed.

Lemma init_fields_present request :
  init_fields_missing request = false →
  ∃ fn sz, req_filename request = Some fn ∧ req_file_size request = Some sz ∧
           PyStr.truthy fn = true ∧ sz ≠ 0.
Proof.
  unfold init_fields_missing.
  destruct (req_filename request) as [fn|], (req_file_size request) as [sz|];
    simpl; try done; [|by rewrite orb_true_r].
  intros [Hfn%negb_false_iff Hsz]%orb_false_iff.
  exists fn, sz. repeat split; [done|].
  destruct (Z.eqb_spec sz 0); done.
Qed.

(** Past validation the view creates the row, asks for the grant, and
    either stores the key and answers 200, or logs, deletes the row and
    answers 500. *)
Lemma init_post_validated E request fn sz w :
  req_filename request = Some fn → req_file_size request = Some sz →
  PyStr.truthy fn = true → sz ≠ 0 →
  UploadInitView_post E request w =
    match db w !! uuid4 E with
    | Some _ => (Raise (IntegrityError "duplicate key value violates unique constraint"), w)
    | None =>
        if db_accepts E (new_row E request fn sz) then
          match generate_upload_config E (CloudStorageService_init E)
                  (Uuid.str (uuid4 E)) fn
                  (default "application/octet-stream" (req_content_type request)) sz
                  (after_create E request fn sz w) with
          | (Ok config, w1) =>
              if db_accepts E (keyed_row E request fn sz) then
                (Ok (mkResponse [("upload_url", JStr (url config));
                                 ("method", JStr (method config));
                                 ("headers", JDict (headers config));
                                 ("transaction_id", JUuid (uuid4 E))] HTTP_200_OK),
                 set_db (<[uuid4 E := keyed_row E request fn sz]> (db w1)) w1)
              else
                let e := DatabaseError "value rejected by the database" in
                let w2 := emit (LogError ("Upload Init Failed: " +:+ exn_str e)) w1 in
                (Ok (mkResponse [("error", JStr (exn_str e))] HTTP_500_INTERNAL_SERVER_ERROR),
                 set_db (delete (uuid4 E) (db w2)) w2)
          | (Raise e, w1) =>
              let w2 := emit (LogError ("Upload Init Failed: " +:+ exn_str e)) w1 in
              (Ok (mkResponse [("error", JStr (exn_str e))] HTTP_500_INTERNAL_SERVER_ERROR),
               set_db (delete (uuid4 E) (db w2)) w2)
          end
        else (Raise (DatabaseError "value rejected by the database"), w)
    end.
Proof.
  intros Hfn Hsz Ht Hnz. unfold UploadInitView_post. rewrite Hfn, Hsz, Ht.
  replace (sz =? 0) with false by (symmetry; by apply Z.eqb_neq).
  cbn [negb orb].
  set (issue := generate_upload_config E (CloudStorageService_init E)).
  unfold keyed_row, after_create, new_row, objects.create, objects.save, objects.delete.
  unfold_monad. cbn [id set_object_key].
  destruct (db w !! uuid4 E); [done|].
  destruct (db_accepts E _); [|done].
  destruct (issue _ _ _ _ _) as [[config|e] w1]; [|done].
  destruct (db_accepts E _); done.
Qed.

(** With a backend other than ['aws'], ['gcs'] and ['azure'] the grant is
    the local upload URL, and issuing it fails only if [reverse] does. *)
Lemma generate_upload_config_local E tid fn ct sz w path :
  configured_backend E = "local" →
  reverse_local_upload E tid = Ok path →
  generate_upload_config E (CloudStorageService_init E) tid fn ct sz w =
    (Ok (mkUploadConfig (from_option (fun base => base +:+ path) path (BASE_URL (settings E)))
           "PUT" [] []), w).
Proof.
  intros Hb Hrev. unfold generate_upload_config, CloudStorageService_init.
  simpl backend. rewrite Hb. simpl.
  unfold _get_local_upload_url; unfold_monad. rewrite Hrev.
  by destruct (BASE_URL (settings E)).
Qed.

(** Under the local backend a validated request with a fresh id succeeds. *)
Lemma init_local_succeeds E request fn sz w path :
  req_filename request = Some fn → PyStr.truthy fn = true →
  req_file_size request = Some sz → sz ≠ 0 →
  configured_backend E = "local" →
  reverse_local_upload E (Uuid.str (uuid4 E)) = Ok path →
  db w !! uuid4 E = None →
  db_accepts E (new_row E request fn sz) = true →
  db_accepts E (keyed_row E request fn sz) = true →
  UploadInitView_post E request w =
    (Ok (mkResponse
           [("upload_url",
             JStr (from_option (fun base => base +:+ path) path (BASE_URL (settings E))));
            ("method", JStr "PUT"); ("headers", JDict []);
            ("transaction_id", JUuid (uuid4 E))] HTTP_200_OK),
     set_db (<[uuid4 E := keyed_row E request fn sz]> (db w)) w).
Proof.
  intros Hfn Ht Hsz Hnz Hb Hrev Hfresh Hacc Hacc'.
  rewrite (init_post_validated E request fn sz w Hfn Hsz Ht Hnz).
  rewrite Hfresh, Hacc.
  rewrite (generate_upload_config_local E _ fn _ sz _ path Hb Hrev).
  rewrite Hacc'. simpl. unfold after_create, set_db. simpl.
  by rewrite insert_insert_eq.
Qed.

(** ** C3: rollback when the grant cannot be issued *)

(** C3. For every initiate call that passed validation and created its
    transaction row, if issuing the credential raises, the view answers 500
    with the error text and has deleted the row by then: the id created in
    the call is not in the table, loading it for the caller gives 404, and
    the table is exactly what it was before the call (no new Pending row). *)
Theorem init_issuance_failure_rolls_back E request fn sz w e w1 :
  req_filename request = Some fn → PyStr.truthy fn = true →
  req_file_size request = Some sz → sz ≠ 0 →
  db w !! uuid4 E = None →
  db_accepts E (new_row E request fn sz) = true →
  generate_upload_config E (CloudStorageService_init E) (Uuid.str (uuid4 E)) fn
    (default "application/octet-stream" (req_content_type request)) sz
    (after_create E request fn sz w) = (Raise e, w1) →
  ∃ w',
    UploadInitView_post E request w =
      (Ok (mkResponse [("error", JStr (exn_str e))] HTTP_500_INTERNAL_SERVER_ERROR), w') ∧
    db (after_create E request fn sz w) !! uuid4 E = Some (new_row E request fn sz) ∧
    db w' !! uuid4 E = None ∧
    get_object_or_404 (uuid4 E) (req_user request) w' = (Raise (Http404 not_found_msg), w') ∧
    db w' = db w.
Proof.
  intros Hfn Ht Hsz Hnz Hfresh Hacc Hissue.
  rewrite (init_post_validated E request fn sz w Hfn Hsz Ht Hnz).
  rewrite Hfresh, Hacc, Hissue. cbv zeta.
  pose proof (generate_upload_config_frame E (CloudStorageService_init E)
                (Uuid.str (uuid4 E)) fn
                (default "application/octet-stream" (req_content_type request)) sz
                (after_create E request fn sz w)) as [Hdb _].
  rewrite Hissue in Hdb. simpl in Hdb.
  eexists. split; [reflexivity|].
  assert (Hgone : delete (uuid4 E) (db w1) = db w).
  { rewrite Hdb. by apply delete_insert_id. }
  simpl. rewrite Hgone.
  split; [apply lookup_insert_eq|].
  split; [done|]. split; [|done].
  unfold get_object_or_404. simpl. by rewrite Hfresh.
Qed.

Lemma init_issuance_failure_rolls_back_witness :
  ∃ w',
    UploadInitView_post (gcs_env 1%N) (init_request 7%N "report.pdf" 1024) empty_world =
      (Ok (mkResponse [("error", JStr "google-cloud-storage is not installed")]
             HTTP_500_INTERNAL_SERVER_ERROR), w') ∧
    db w' = ∅.
Proof.
  destruct (init_issuance_failure_rolls_back (gcs_env 1%N)
              (init_request 7%N "report.pdf" 1024) "report.pdf" 1024 empty_world
              (ImportError "google-cloud-storage is not installed")
              (after_create (gcs_env 1%N) (init_request 7%N "report.pdf" 1024)
                 "report.pdf" 1024 empty_world))
    as (w' & Hpost & _ & _ & _ & Hdb);
    [reflexivity | reflexivity | reflexivity | lia | reflexivity | reflexivity
    | vm_compute; reflexivity |].
  exists w'. split; [exact Hpost | exact Hdb].
Defined.

(** ** C8: what initiate validates *)

Lemma init_validated_not_400 E request fn sz w r w' :
  req_filename request = Some fn → PyStr.truthy fn = true →
  req_file_size request = Some sz → sz ≠ 0 →
  UploadInitView_post E request w = (Ok r, w') →
  status_code r ≠ HTTP_400_BAD_REQUEST.
Proof.
  intros Hfn Ht Hsz Hnz.
  rewrite (init_post_validated E request fn sz w Hfn Hsz Ht Hnz).
  intros H. repeat case_match; simplify_eq/=; done.
Qed.

(** C8, claim as stated refuted: a negative [file_size] is not rejected; the
    view answers 200 and the row is persisted with the negative size. *)
Lemma init_accepts_negative_size :
  ∃ r w',
    UploadInitView_post (local_env 1%N) (init_request 7%N "report.pdf" (-5)) empty_world
      = (Ok r, w') ∧
    status_code r = HTTP_200_OK ∧
    file_size <$> db w' !! 1%N = Some (-5).
Proof.
  eexists _, _. split; [vm_compute; reflexivity|].
  split; vm_compute; reflexivity.
Qed.

(** C8, amended. initiate answers 400 when [filename] is missing or empty
    or [file_size] is missing, and whenever it answers 400 nothing has been
    written (the world is the one before the call); the sign of [file_size]
    is not checked: with a non-empty filename, a negative size never gets
    the 400, and where the grant can be issued (local backend, fresh id,
    row accepted by the database) the row is persisted with that size. *)
Theorem init_validation_guard E request w :
  ((req_filename request = None ∨ req_filename request = Some ""
    ∨ req_file_size request = None) →
   UploadInitView_post E request w = (Ok init_required_error, w)) ∧
  (∀ r w', UploadInitView_post E request w = (Ok r, w') →
           status_code r = HTTP_400_BAD_REQUEST → r = init_required_error ∧ w' = w) ∧
  (∀ fn sz r w',
     req_filename request = Some fn → fn ≠ "" →
     req_file_size request = Some sz → sz < 0 →
     UploadInitView_post E request w = (Ok r, w') →
     status_code r ≠ HTTP_400_BAD_REQUEST) ∧
  (∀ fn sz path,
     req_filename request = Some fn → fn ≠ "" →
     req_file_size request = Some sz → sz < 0 →
     configured_backend E = "local" →
     reverse_local_upload E (Uuid.str (uuid4 E)) = Ok path →
     db w !! uuid4 E = None →
     db_accepts E (new_row E request fn sz) = true →
     db_accepts E (keyed_row E request fn sz) = true →
     ∃ r w', UploadInitView_post E request w = (Ok r, w') ∧
             status_code r = HTTP_200_OK ∧
             file_size <$> db w' !! uuid4 E = Some sz).
Proof.
  split; [|split; [|split]].
  - intros H. apply init_post_rejected. unfold init_fields_missing.
    destruct H as [H|[H|H]]; rewrite H; simpl; [done|done|by rewrite orb_true_r].
  - intros r w' Hpost H400.
    destruct (init_fields_missing request) eqn:Hm.
    + rewrite (init_post_rejected E request w Hm) in Hpost. by simplify_eq.
    + destruct (init_fields_present request Hm) as (fn & sz & Hfn & Hsz & Ht & Hnz).
      by destruct (init_validated_not_400 E request fn sz w r w' Hfn Ht Hsz Hnz Hpost).
  - intros fn sz r w' Hfn Hne Hsz Hneg Hpost.
    apply (init_validated_not_400 E request fn sz w r w' Hfn); [|done|lia|done].
    by destruct fn.
  - intros fn sz path Hfn Hne Hsz Hneg Hb Hrev Hfresh Hacc Hacc'.
    eexists _, _. split.
    + apply (init_local_succeeds E request fn sz w path); try done; [by destruct fn|lia].
    + split; [done|]. simpl. by rewrite lookup_insert_eq.
Qed.

Lemma init_validation_guard_witness :
  UploadInitView_post (local_env 1%N)
    (mkRequest 7%N (Some "report.pdf") None None TidMissing []) empty_world
    = (Ok init_required_error, empty_world) ∧
  (∃ r w',
     UploadInitView_post (local_env 1%N) (init_request 7%N "report.pdf" (-5)) empty_world
       = (Ok r, w') ∧
     status_code r = HTTP_200_OK ∧
     file_size <$> db w' !! 1%N = Some (-5)).
Proof.
  split.
  - apply (proj1 (init_validation_guard (local_env 1%N)
                    (mkRequest 7%N (Some "report.pdf") None None TidMissing [])
                    empty_world)).
    right; right; reflexivity.
  - apply (proj2 (proj2 (proj2 (init_validation_guard (local_env 1%N)
                                  (init_request 7%N "report.pdf" (-5)) empty_world)))
             "report.pdf" (-5)
             "/api/upload/local/00000000-0000-0000-0000-000000000001/");
      [reflexivity | discriminate | reflexivity | lia | reflexivity | reflexivity
      | reflexivity | reflexivity | reflexivity].
Defined.

(** ** C10: what a successful initiate leaves in the table *)

(** C10. Whenever initiate answers 200, the response names a transaction
    id, and loading that transaction for the caller right afterwards gives a
    row whose status is [PENDING] and whose [object_key] is
    [_generate_key(str(id), filename)]: the key the view writes is the key
    the service derived for the grant. *)
Theorem init_then_load E request w r w' :
  UploadInitView_post E request w = (Ok r, w') →
  status_code r = HTTP_200_OK →
  ∃ fn sz t,
    req_filename request = Some fn ∧ req_file_size request = Some sz ∧
    In ("transaction_id", JUuid (id t)) (resp_data r) ∧
    get_object_or_404 (id t) (req_user request) w' = (Ok t, w') ∧
    status t = PENDING ∧
    object_key t = _generate_key (CloudStorageService_init E) (Uuid.str (id t)) fn.
Proof.
  intros Hpost H200.
  destruct (init_fields_missing request) eqn:Hm.
  { rewrite (init_post_rejected E request w Hm) in Hpost. by simplify_eq. }
  destruct (init_fields_present request Hm) as (fn & sz & Hfn & Hsz & Ht & Hnz).
  rewrite (init_post_validated E request fn sz w Hfn Hsz Ht Hnz) in Hpost.
  exists fn, sz, (keyed_row E request fn sz).
  repeat case_match; simplify_eq/=.
  repeat split; try done.
  - do 3 right. by left.
  - unfold get_object_or_404. simpl. by rewrite lookup_insert_eq, N.eqb_refl.
Qed.

Lemma init_then_load_witness :
  ∃ t,
    get_object_or_404 1%N 7%N
      (UploadInitView_post (local_env 1%N) (init_request 7%N "a/report.pdf" 1024)
         empty_world).2
    = (Ok t, (UploadInitView_post (local_env 1%N) (init_request 7%N "a/report.pdf" 1024)
                empty_world).2) ∧
    status t = PENDING ∧
    object_key t = "uploads/00000000-0000-0000-0000-000000000001/report.pdf".
Proof.
  destruct (init_then_load (local_env 1%N) (init_request 7%N "a/report.pdf" 1024)
              empty_world
              (mkResponse
                 [("upload_url",
                   JStr "/api/upload/local/00000000-0000-0000-0000-000000000001/");
                  ("method", JStr "PUT"); ("headers", JDict []);
                  ("transaction_id", JUuid 1%N)] HTTP_200_OK)
              (UploadInitView_post (local_env 1%N) (init_request 7%N "a/report.pdf" 1024)
                 empty_world).2
              ltac:(vm_compute; reflexivity))
    as (fn & sz & t & Hfn & _ & Hin & Hload & Hst & Hkey).
  - vm_compute. reflexivity.
  - (* the id in the response is the one loaded *)
    assert (Hid : id t = 1%N).
    { vm_compute in Hin.
      destruct Hin as [H|[H|[H|[H|[]]]]]; try discriminate H. by inversion H. }
    assert (fn = "a/report.pdf") as -> by (vm_compute in Hfn; by inversion Hfn).
    rewrite Hid in Hload, Hkey.
    exists t. split; [exact Hload|]. split; [exact Hst|]. exact Hkey.
Defined.

(** ** C1, C2: what the existence check answers *)

(** C1, the code at the failing input.  With [STORAGE_BACKEND = 'gcs'] the
    dispatcher has no branch for the backend: [check_exists] answers [True]
    with no probe sent and nothing stored under the key, and complete marks
    the Pending transaction Completed and answers success.  The ['aws']
    branch next to it answers [False] when its probe raises. *)
Theorem check_exists_unhandled_backend_reports_success :
  let E := gcs_env 2%N in
  let t := sample_row PENDING None "gcs" in
  let w := one_row_world t in
  media w !! object_key t = None ∧
  check_exists E (CloudStorageService_init E) (object_key t) w = (Ok true, w) ∧
  UploadCompleteView_post E (complete_request 7%N 1%N) w =
    (Ok (complete_success t), set_db {[ 1%N := completed_row E t ]} w) ∧
  status (completed_row E t) = COMPLETED ∧
  check_exists (aws_env [] 2%N) (CloudStorageService_init (aws_env [] 2%N)) (object_key t) w
    = (Ok false, emit (S3HeadObject "bucket" (object_key t)) w).
Proof.
  cbv zeta. split; [reflexivity|].
  split; [reflexivity|].
  split; [|split; reflexivity].
  vm_compute. reflexivity.
Qed.

(** C2. When the configured backend is ['local'] (also when the setting is
    absent), [check_exists] answers [True] for every key and leaves the
    world as it found it: no probe, and the media storage is not consulted;
    so complete on a Pending transaction the caller owns marks it Completed
    and answers success whatever the media storage holds, in particular when
    nothing was ever written under its key. *)
Theorem local_backend_completes_without_check E :
  configured_backend E = "local" →
  (∀ key w, check_exists E (CloudStorageService_init E) key w = (Ok true, w)) ∧
  (∀ request tid t w,
     req_transaction_id request = TidUuid tid →
     db w !! tid = Some t → id t = tid → user t = req_user request →
     status t = PENDING →
     db_accepts E (completed_row E t) = true →
     UploadCompleteView_post E request w =
       (Ok (complete_success t), set_db (<[tid := completed_row E t]> (db w)) w) ∧
     status (completed_row E t) = COMPLETED).
Proof.
  intros Hb.
  assert (Hchk : ∀ key w, check_exists E (CloudStorageService_init E) key w = (Ok true, w)).
  { intros key w. apply check_exists_unhandled;
      unfold CloudStorageService_init; simpl; rewrite Hb; discriminate. }
  split; [exact Hchk|].
  intros request tid t w Htid Hdb Hid Hu _ Hacc.
  rewrite (complete_post_owned E request tid t w Htid Hdb Hu).
  rewrite Hchk, Hacc, Hid. done.
Qed.

Lemma local_backend_completes_without_check_witness :
  let E := local_env 2%N in
  let t := sample_row PENDING None "local" in
  media (one_row_world t) !! object_key t = None ∧
  UploadCompleteView_post E (complete_request 7%N 1%N) (one_row_world t) =
    (Ok (complete_success t),
     set_db (<[1%N := completed_row E t]> (db (one_row_world t))) (one_row_world t)).
Proof.
  cbv zeta. split; [reflexivity|].
  apply (proj2 (local_backend_completes_without_check (local_env 2%N) eq_refl)
           (complete_request 7%N 1%N) 1%N (sample_row PENDING None "local")
           (one_row_world (sample_row PENDING None "local")));
    reflexivity.
Defined.

(** ** C4: complete on a transaction that is already Completed *)

(** C4, claim as stated refuted.  Under the ['aws'] backend, complete on an
    already Completed transaction sends the [head_object] probe again (two
    calls, two probes in the trace), and once the object is gone from the
    bucket the repeated call answers 404 instead of the earlier success. *)
Lemma complete_again_probes_again :
  let t := sample_row PENDING None "aws" in
  let request := complete_request 7%N 1%N in
  let first := UploadCompleteView_post (aws_env [object_key t] 2%N) request (one_row_world t) in
  let again := UploadCompleteView_post (aws_env [object_key t] 2%N) request first.2 in
  let gone := UploadCompleteView_post (aws_env [] 2%N) request first.2 in
  first.1 = Ok (complete_success t) ∧
  status <$> db first.2 !! 1%N = Some COMPLETED ∧
  trace first.2 = [S3HeadObject "bucket" (object_key t)] ∧
  trace again.2 = [S3HeadObject "bucket" (object_key t); S3HeadObject "bucket" (object_key t)] ∧
  gone.1 = Ok complete_not_in_storage ∧
  gone.1 ≠ first.1.
Proof.
  cbv zeta. repeat split; try (vm_compute; reflexivity).
  vm_compute. discriminate.
Qed.

(** C4, amended.  For a transaction the caller owns that is already
    Completed, complete runs the existence check again, and the check's
    answer decides the result: when it answers [True] the call returns the
    same success result and the row stays Completed (its completion time is
    stamped anew); when it answers [False] the call returns 404 "File not
    found in storage" and the table is unchanged.  Under ['aws'] with a
    usable client, the call sends one more [head_object] probe. *)
Theorem complete_on_completed_reruns_check E request tid t w :
  req_transaction_id request = TidUuid tid →
  db w !! tid = Some t → id t = tid → user t = req_user request →
  status t = COMPLETED →
  (∀ w1, check_exists E (CloudStorageService_init E) (object_key t) w = (Ok true, w1) →
         db_accepts E (completed_row E t) = true →
         UploadCompleteView_post E request w =
           (Ok (complete_success t), set_db (<[tid := completed_row E t]> (db w)) w1) ∧
         completed_row E t = set_completed_at (Some (now E)) t) ∧
  (∀ w1, check_exists E (CloudStorageService_init E) (object_key t) w = (Ok false, w1) →
         UploadCompleteView_post E request w = (Ok complete_not_in_storage, w1) ∧
         db w1 = db w) ∧
  (∀ client access secret s3 bucket,
     configured_backend E = "aws" →
     boto3 E = Some client →
     AWS_ACCESS_KEY_ID (settings E) = Some access →
     AWS_SECRET_ACCESS_KEY (settings E) = Some secret →
     client access secret None = Ok s3 →
     AWS_STORAGE_BUCKET_NAME (settings E) = Some bucket →
     trace (UploadCompleteView_post E request w).2 =
       (trace w ++ [S3HeadObject bucket (object_key t)])%list).
Proof.
  intros Htid Hdb Hid Hu Hst.
  pose proof (complete_post_owned E request tid t w Htid Hdb Hu) as Hpost.
  pose proof (check_exists_frame E (CloudStorageService_init E) (object_key t) w) as [Hfr _].
  split; [|split].
  - intros w1 Hchk Hacc. rewrite Hchk in Hpost, Hfr. rewrite Hacc, Hid in Hpost.
    simpl in Hfr. rewrite Hfr in Hpost. split; [exact Hpost|].
    unfold completed_row. destruct t; simpl in *. by subst.
  - intros w1 Hchk. rewrite Hchk in Hpost, Hfr. done.
  - intros client access secret s3 bucket Hb Hc Ha Hs Hcl Hbk.
    rewrite Hpost. unfold check_exists, CloudStorageService_init. simpl backend.
    rewrite Hb. simpl.
    destruct (head_object s3 bucket (object_key t)) as [[]|e] eqn:Hh.
    + rewrite (check_aws_probe_ok E _ _ w client access secret s3 bucket) by done.
      by destruct (db_accepts E _).
    + by rewrite (check_aws_probe_error E _ _ w client access secret s3 bucket e).
Qed.

Lemma complete_on_completed_reruns_check_witness :
  let E := aws_env [] 2%N in
  let t := sample_row COMPLETED (Some 1699999500) "aws" in
  UploadCompleteView_post E (complete_request 7%N 1%N) (one_row_world t) =
    (Ok complete_not_in_storage,
     emit (S3HeadObject "bucket" (object_key t)) (one_row_world t)).
Proof.
  cbv zeta.
  apply (proj1 (proj2 (complete_on_completed_reruns_check (aws_env [] 2%N)
                         (complete_request 7%N 1%N) 1%N
                         (sample_row COMPLETED (Some 1699999500) "aws")
                         (one_row_world (sample_row COMPLETED (Some 1699999500) "aws"))
                         eq_refl eq_refl eq_refl eq_refl eq_refl))
           (emit (S3HeadObject "bucket"
                    (object_key (sample_row COMPLETED (Some 1699999500) "aws")))
              (one_row_world (sample_row COMPLETED (Some 1699999500) "aws")))).
  vm_compute. reflexivity.
Defined.

(** ** C5: ownership isolation *)

(** C5. complete called by a user who does not own the transaction raises
    the same [Http404], with the same message, as it does when no such
    transaction exists; it writes nothing and sends no probe, and the client
    receives the same 404 response in both cases, in which nothing of the
    row (not its key, not its backend) appears. *)
Theorem complete_foreign_is_not_found E request tid t w :
  req_transaction_id request = TidUuid tid →
  db w !! tid = Some t → user t ≠ req_user request →
  let absent := set_db (delete tid (db w)) w in
  UploadCompleteView_post E request w = (Raise (Http404 not_found_msg), w) ∧
  UploadCompleteView_post E request absent = (Raise (Http404 not_found_msg), absent) ∧
  (dispatch (UploadCompleteView_post E request) w).1 =
    (dispatch (UploadCompleteView_post E request) absent).1 ∧
  (dispatch (UploadCompleteView_post E request) w).1 =
    mkResponse [("detail", JStr not_found_msg)] HTTP_404_NOT_FOUND.
Proof.
  intros Htid Hdb Hu absent.
  assert (H1 : UploadCompleteView_post E request w = (Raise (Http404 not_found_msg), w)).
  { unfold UploadCompleteView_post. rewrite Htid. unfold bind at 1.
    unfold get_object_or_404. rewrite Hdb.
    destruct (N.eqb_spec (user t) (req_user request)); done. }
  assert (H2 : UploadCompleteView_post E request absent
               = (Raise (Http404 not_found_msg), absent)).
  { unfold UploadCompleteView_post. rewrite Htid. unfold bind at 1.
    unfold get_object_or_404, absent. simpl. by rewrite lookup_delete_eq. }
  repeat split; [done|done| |]; unfold dispatch; by rewrite ?H1, ?H2.
Qed.

Lemma complete_foreign_is_not_found_witness :
  UploadCompleteView_post (local_env 2%N) (complete_request 8%N 1%N)
    (one_row_world (sample_row PENDING None "local"))
  = (Raise (Http404 not_found_msg), one_row_world (sample_row PENDING None "local")).
Proof.
  apply (complete_foreign_is_not_found (local_env 2%N) (complete_request 8%N 1%N) 1%N
           (sample_row PENDING None "local")
           (one_row_world (sample_row PENDING None "local")));
    [reflexivity | reflexivity | discriminate].
Defined.

(** ** C9: the local upload endpoint and the declared size *)

(** C9, claim as stated refuted: three bytes sent for a transaction that
    declared 1024 are stored under its key and answered with 200. *)
Lemma local_upload_accepts_truncated_body :
  let t := sample_row PENDING None "local" in
  let body := [Byte.x01; Byte.x02; Byte.x03] in
  Z.of_nat (length body) ≠ file_size t ∧
  LocalUploadView_handle_upload (local_env 2%N) (upload_request 7%N body) 1%N
    (one_row_world t)
  = (Ok uploaded_response, set_media {[ object_key t := body ]} (one_row_world t)).
Proof.
  cbv zeta. split; [vm_compute; discriminate|].
  vm_compute. reflexivity.
Qed.

Lemma first_free_is_free files cand fuel written :
  first_free files cand fuel = Some written → files !! written = None.
Proof.
  revert cand. induction fuel as [|fuel IH]; intros cand; simpl;
    destruct (files !! cand) eqn:Hc; try done; try (by intros [= <-]).
  apply IH.
Qed.

Lemma first_free_of_free files cand fuel written :
  files !! cand = None → first_free files cand fuel = Some written → written = cand.
Proof. intros Hc. destruct fuel; simpl; rewrite Hc; by intros [= <-]. Qed.

(** The in-memory storage of the worked runs keeps Django's promise. *)
Lemma memory_storage_keeps_content fresh : storage_keeps_content (local_env fresh).
Proof.
  intros files name content written files'. simpl. unfold memory_storage_save.
  destruct (first_free files name (size files)) as [c|] eqn:Hfree; [|done].
  intros [= <- <-]. split; [done|]. split.
  - by apply first_free_is_free in Hfree.
  - intros Hname. by apply (first_free_of_free files name (size files)).
Qed.

(** C9, amended.  With the local backend enabled and a transaction the
    caller owns, the endpoint hands the received bytes, whatever their
    count, to [default_storage.save] under the transaction's object key and
    answers 200 "uploaded" whenever the save returns: the comparison with
    the declared [file_size] changes nothing, and no response of the
    endpoint carries a status other than 200 or 403.  With a storage that
    keeps Django's promise, the received bytes, truncated or not, are then
    stored in full under the name the save returned, which is the object key
    when no file was there and another, unused name when one was; every
    other file is left as it was. *)
Theorem local_upload_ignores_declared_size E request tid w :
  (∀ t name files,
     configured_backend E = "local" →
     db w !! tid = Some t → user t = req_user request →
     storage_save E (media w) (object_key t) (req_body request) = Ok (name, files) →
     LocalUploadView_handle_upload E request tid w =
       (Ok uploaded_response, set_media files w)) ∧
  (∀ r w', LocalUploadView_handle_upload E request tid w = (Ok r, w') →
           status_code r = HTTP_200_OK ∨ status_code r = HTTP_403_FORBIDDEN) ∧
  (∀ t name files,
     storage_keeps_content E →
     configured_backend E = "local" →
     db w !! tid = Some t → user t = req_user request →
     storage_save E (media w) (object_key t) (req_body request) = Ok (name, files) →
     (LocalUploadView_handle_upload E request tid w).1 = Ok uploaded_response ∧
     media (LocalUploadView_handle_upload E request tid w).2 !! name
       = Some (req_body request) ∧
     media w !! name = None ∧
     (media w !! object_key t = None → name = object_key t) ∧
     (∀ other, other ≠ name →
               media (LocalUploadView_handle_upload E request tid w).2 !! other
               = media w !! other)).
Proof.
  assert (Hok : ∀ t name files,
     configured_backend E = "local" →
     db w !! tid = Some t → user t = req_user request →
     storage_save E (media w) (object_key t) (req_body request) = Ok (name, files) →
     LocalUploadView_handle_upload E request tid w =
       (Ok uploaded_response, set_media files w)).
  { intros t name files Hb Hdb Hu Hsave.
    unfold LocalUploadView_handle_upload, get_object_or_404, default_storage_save.
    unfold_monad. rewrite Hb. cbn [String.eqb Ascii.eqb Bool.eqb negb andb].
    rewrite Hdb, Hu, N.eqb_refl.
    destruct (negb _); by rewrite Hsave. }
  split; [exact Hok|]. split.
  - intros r w'. unfold LocalUploadView_handle_upload, get_object_or_404,
      default_storage_save; unfold_monad.
    intros H. repeat case_match; simplify_eq/=; auto.
  - intros t name files Hkeep Hb Hdb Hu Hsave.
    rewrite (Hok t name files Hb Hdb Hu Hsave). simpl.
    destruct (Hkeep _ _ _ _ _ Hsave) as (-> & Hfree & Hsame).
    split; [done|]. split; [apply lookup_insert_eq|]. split; [done|]. split; [done|].
    intros other Hne. by apply lookup_insert_ne.
Qed.

(** A second, truncated upload for the same transaction: three bytes where
    1024 were declared, sent when a file is already stored under the key. *)
Lemma local_upload_ignores_declared_size_witness :
  let t := sample_row PENDING None "local" in
  let body := [Byte.x01; Byte.x02; Byte.x03] in
  let w := set_media {[ object_key t := [Byte.x09] ]} (one_row_world t) in
  let after := LocalUploadView_handle_upload (local_env 2%N) (upload_request 7%N body) 1%N w in
  Z.of_nat (length body) ≠ file_size t ∧
  after.1 = Ok uploaded_response ∧
  media after.2 !! (object_key t +:+ "_") = Some body ∧
  media after.2 !! object_key t = Some [Byte.x09].
Proof.
  cbv zeta. split; [vm_compute; discriminate|].
  destruct (proj2 (proj2 (local_upload_ignores_declared_size (local_env 2%N)
              (upload_request 7%N [Byte.x01; Byte.x02; Byte.x03]) 1%N
              (set_media {[ object_key (sample_row PENDING None "local") := [Byte.x09] ]}
                 (one_row_world (sample_row PENDING None "local")))))
              (sample_row PENDING None "local")
              (object_key (sample_row PENDING None "local") +:+ "_")
              (<[object_key (sample_row PENDING None "local") +:+ "_"
                   := [Byte.x01; Byte.x02; Byte.x03]]>
                 {[ object_key (sample_row PENDING None "local") := [Byte.x09] ]})
              (memory_storage_keeps_content 2%N) eq_refl eq_refl eq_refl)
    as (Hres & Hnew & _ & _ & Hold).
  - vm_compute. reflexivity.
  - split; [exact Hres|]. split; [exact Hnew|].
    rewrite (Hold (object_key (sample_row PENDING None "local"))) by discriminate.
    reflexivity.
Defined.

(** ** C7: what the key keeps of the filename *)

(** C7, claim as stated refuted.  A filename with directory components can
    leave a [..] segment in the key (its last component is kept as it is),
    and a filename that sanitizes to empty is not rejected: initiate answers
    200 and stores a key that ends in the separator. *)
Lemma generate_key_sanitization_gaps :
  (PyStr.contains os_path.sep "docs/.." = true ∧
   has_traversal_segment
     (_generate_key (CloudStorageService_init (local_env 1%N)) (Uuid.str 1%N) "docs/..")
   = true) ∧
  (PyStr.contains os_path.sep "docs/" = true ∧
   os_path.basename "docs/" = "" ∧
   ∃ r w',
     UploadInitView_post (local_env 1%N) (init_request 7%N "docs/" 1024) empty_world
       = (Ok r, w') ∧
     status_code r = HTTP_200_OK ∧
     object_key <$> db w' !! 1%N = Some "uploads/00000000-0000-0000-0000-000000000001/").
Proof.
  split; [split; vm_compute; reflexivity|].
  split; [reflexivity|]. split; [reflexivity|].
  eexists _, _. split; [vm_compute; reflexivity|].
  split; vm_compute; reflexivity.
Qed.

(** C7, amended.  For every transaction id and filename the key is
    [uploads/{transaction_id}/{base}], where [base] is what follows the last
    ['/'] of the filename: [base] contains no ['/'] and the directory part is
    dropped (for ["../../etc/passwd"] the key is
    [uploads/{transaction_id}/passwd], and with the text of a UUID as id
    that key has no [..] segment).  A non-empty filename whose [base] is empty is not rejected:
    the key is [uploads/{transaction_id}/] and initiate does not answer 400
    for it. *)
Theorem generate_key_keeps_basename self tid fn :
  _generate_key self tid fn = "uploads/" +:+ tid +:+ "/" +:+ os_path.basename fn ∧
  PyStr.contains os_path.sep (os_path.basename fn) = false ∧
  (∃ dir, fn = dir +:+ os_path.basename fn ∧ (dir = "" ∨ ∃ d, dir = d +:+ "/")) ∧
  _generate_key self tid "../../etc/passwd" = "uploads/" +:+ tid +:+ "/passwd" ∧
  (∀ u : uuid,
     has_traversal_segment (_generate_key self (Uuid.str u) "../../etc/passwd") = false) ∧
  (os_path.basename fn = "" →
   _generate_key self tid fn = "uploads/" +:+ tid +:+ "/" ∧
   ∀ E request sz w r w',
     fn ≠ "" → req_filename request = Some fn →
     req_file_size request = Some sz → sz ≠ 0 →
     UploadInitView_post E request w = (Ok r, w') →
     status_code r ≠ HTTP_400_BAD_REQUEST).
Proof.
  split; [reflexivity|].
  split; [apply basename_no_sep|].
  split; [apply basename_tail|].
  split; [reflexivity|].
  split.
  - intros u. rewrite generate_key_traversal.
    change (String.eqb ".." (os_path.basename "../../etc/passwd")) with false.
    rewrite orb_false_r. unfold has_traversal_segment.
    destruct (uuid_str_no_traversal u) as [-> Hne]. cbn [existsb].
    rewrite orb_false_r. apply String.eqb_neq. congruence.
  - intros Hbase. split; [by rewrite generate_key_shape, Hbase|].
    intros E request sz w r w' Hne Hfn Hsz Hnz Hpost.
    apply (init_validated_not_400 E request fn sz w r w' Hfn); [|done..].
    by destruct fn.
Qed.

Lemma generate_key_keeps_basename_witness :
  os_path.basename "docs/" = "" ∧
  _generate_key (CloudStorageService_init (local_env 1%N)) (Uuid.str 1%N) "docs/"
    = "uploads/00000000-0000-0000-0000-000000000001/".
Proof.
  split; [reflexivity|].
  apply (proj1 (proj2 (proj2 (proj2 (proj2 (proj2
           (generate_key_keeps_basename (CloudStorageService_init (local_env 1%N))
              (Uuid.str 1%N) "docs/")))))
           eq_refl)).
Defined.

(** * Further properties of the code *)

(** ** [CloudStorageService.generate_upload_config] and its four branches *)

(** X1. Every grant the service issues, on every backend, asks for method
    PUT and carries no form fields; its headers are the content type alone
    on ['aws'] and ['gcs'], the content type and the block-blob marker on
    ['azure'], and none on the local branch; and a successful issuance
    leaves the world as it was (nothing logged, nothing written). *)
Theorem issued_grant_shape E self tid fn ct sz w config w' :
  generate_upload_config E self tid fn ct sz w = (Ok config, w') →
  method config = "PUT" ∧ data config = [] ∧ w' = w ∧
  headers config =
    (if String.eqb (backend self) "aws" || String.eqb (backend self) "gcs"
     then [("Content-Type", ct)]
     else if String.eqb (backend self) "azure"
          then [("Content-Type", ct); ("x-ms-blob-type", "BlockBlob")]
          else []).
Proof.
  unfold_storage; unfold_monad. intros H.
  repeat case_match; simplify_eq/=; done.
Qed.

Lemma issued_grant_shape_witness :
  ∃ config,
    generate_upload_config (aws_env [] 1%N) (CloudStorageService_init (aws_env [] 1%N))
      "7d9c" "a/report.pdf" "application/pdf" 1024 empty_world = (Ok config, empty_world) ∧
    method config = "PUT" ∧ headers config = [("Content-Type", "application/pdf")].
Proof.
  eexists. split; [vm_compute; reflexivity|].
  pose proof (issued_grant_shape (aws_env [] 1%N) (CloudStorageService_init (aws_env [] 1%N))
                "7d9c" "a/report.pdf" "application/pdf" 1024 empty_world _ empty_world
                eq_refl) as (Hm & _ & _ & Hh).
  split; [exact Hm | exact Hh].
Defined.

(** X2. When the SDK of the configured backend could not be imported, the
    service raises [ImportError] naming the package; it does not fall back
    to another backend, and nothing is logged or written. *)
Theorem issuance_without_sdk E self tid fn ct sz w :
  (backend self = "aws" → boto3 E = None →
   generate_upload_config E self tid fn ct sz w =
     (Raise (ImportError "boto3 is not installed"), w)) ∧
  (backend self = "gcs" → gcs E = None →
   generate_upload_config E self tid fn ct sz w =
     (Raise (ImportError "google-cloud-storage is not installed"), w)) ∧
  (backend self = "azure" → generate_blob_sas E = None →
   generate_upload_config E self tid fn ct sz w =
     (Raise (ImportError "azure-storage-blob is not installed"), w)).
Proof.
  repeat split; intros Hb Hsdk; unfold_storage; unfold_monad;
    by rewrite Hb, Hsdk.
Qed.

Lemma issuance_without_sdk_witness :
  generate_upload_config (gcs_env 1%N) (CloudStorageService_init (gcs_env 1%N))
    "7d9c" "report.pdf" "application/pdf" 1024 empty_world =
  (Raise (ImportError "google-cloud-storage is not installed"), empty_world).
Proof.
  apply (proj1 (proj2 (issuance_without_sdk (gcs_env 1%N)
                         (CloudStorageService_init (gcs_env 1%N))
                         "7d9c" "report.pdf" "application/pdf" 1024 empty_world)));
    reflexivity.
Defined.

(** X3. On ['aws'], a failure inside the signing block (the signing call
    raises, or the bucket setting is undefined) is logged once as "Failed to
    generate AWS presigned URL: ..." and the same exception is raised again;
    a failure before the block (the access-key id or the secret access key
    is undefined, or the client cannot be built) is raised without a log
    line, as the [AttributeError] naming the setting or as the client's own
    exception. *)
Theorem aws_signing_failures E self tid fn ct sz w client access secret s3 :
  backend self = "aws" → boto3 E = Some client →
  (AWS_ACCESS_KEY_ID (settings E) = None →
   generate_upload_config E self tid fn ct sz w =
     (Raise (AttributeError "'Settings' object has no attribute 'AWS_ACCESS_KEY_ID'"), w)) ∧
  (AWS_ACCESS_KEY_ID (settings E) = Some access →
   AWS_SECRET_ACCESS_KEY (settings E) = None →
   generate_upload_config E self tid fn ct sz w =
     (Raise (AttributeError "'Settings' object has no attribute 'AWS_SECRET_ACCESS_KEY'"), w)) ∧
  (AWS_ACCESS_KEY_ID (settings E) = Some access →
   AWS_SECRET_ACCESS_KEY (settings E) = Some secret →
   (∀ e, client access secret (AWS_S3_REGION_NAME (settings E)) = Raise e →
         generate_upload_config E self tid fn ct sz w = (Raise e, w)) ∧
   (client access secret (AWS_S3_REGION_NAME (settings E)) = Ok s3 →
    (AWS_STORAGE_BUCKET_NAME (settings E) = None →
     ∃ e, generate_upload_config E self tid fn ct sz w =
            (Raise e, emit (LogError ("Failed to generate AWS presigned URL: "
                                        +:+ exn_str e)) w)) ∧
    (∀ bucket e,
       AWS_STORAGE_BUCKET_NAME (settings E) = Some bucket →
       generate_presigned_url s3 bucket (_generate_key self tid fn) ct 900 = Raise e →
       generate_upload_config E self tid fn ct sz w =
         (Raise e, emit (LogError ("Failed to generate AWS presigned URL: "
                                     +:+ exn_str e)) w)))).
Proof.
  intros Hb Hsdk. unfold_storage; unfold_monad. rewrite Hb, Hsdk. simpl.
  split; [|split].
  - by intros ->.
  - by intros -> ->.
  - intros -> ->. split.
    + by intros e ->.
    + intros ->. split.
      * intros ->. eauto.
      * by intros bucket e -> ->.
Qed.

Lemma aws_signing_failures_witness :
  generate_upload_config (aws_unsigned_env 1%N)
    (CloudStorageService_init (aws_unsigned_env 1%N))
    "7d9c" "report.pdf" "application/pdf" 1024 empty_world =
  (Raise (VendorError "Unable to locate credentials"),
   emit (LogError "Failed to generate AWS presigned URL: Unable to locate credentials")
     empty_world).
Proof.
  apply (proj2 (proj2 (proj2 (proj2 (aws_signing_failures (aws_unsigned_env 1%N)
           (CloudStorageService_init (aws_unsigned_env 1%N))
           "7d9c" "report.pdf" "application/pdf" 1024 empty_world
           (fun _ _ _ => Ok s3_unsigned) "AKIA" "secret" s3_unsigned
           eq_refl eq_refl)) eq_refl eq_refl) eq_refl)
         "bucket" (VendorError "Unable to locate credentials") eq_refl eq_refl).
Defined.

Lemma issuance_world E self tid fn ct sz w r w' :
  generate_upload_config E self tid fn ct sz w = (r, w') →
  w' = w ∨
  (backend self = "aws" ∧
   ∃ e, r = Raise e ∧
        w' = emit (LogError ("Failed to generate AWS presigned URL: " +:+ exn_str e)) w).
Proof.
  unfold generate_upload_config.
  destruct (String.eqb_spec (backend self) "aws") as [Haws|_].
  - unfold_storage; unfold_monad. intros H.
    repeat case_match; simplify_eq/=; eauto 10.
  - unfold_storage; unfold_monad. intros H.
    repeat case_match; simplify_eq/=; eauto.
Qed.

(** X4. Whatever the backend, issuing a grant writes neither the transaction
    table nor the media storage and sends no probe: the world afterwards is
    the one before, or the one before plus a single log line, and a log line
    appears only on ['aws'] and only together with a raised exception. *)
Theorem issuance_effects E self tid fn ct sz w r w' :
  generate_upload_config E self tid fn ct sz w = (r, w') →
  w' = w ∨
  (backend self = "aws" ∧
   ∃ e, r = Raise e ∧
        w' = emit (LogError ("Failed to generate AWS presigned URL: " +:+ exn_str e)) w).
Proof. apply issuance_world. Qed.

Lemma issuance_effects_witness :
  empty_world = empty_world ∨
  ("local" = "aws" ∧
   ∃ e, Ok (mkUploadConfig "/api/upload/local/00000000-0000-0000-0000-000000000001/"
              "PUT" [] []) = Raise e ∧
        empty_world = emit (LogError ("Failed to generate AWS presigned URL: " +:+ exn_str e))
                        empty_world).
Proof.
  apply (issuance_effects (local_env 1%N) (CloudStorageService_init (local_env 1%N))
           (Uuid.str 1%N) "report.pdf" "application/pdf" 1024 empty_world).
  reflexivity.
Defined.

(** X5. A backend other than ['aws'], ['gcs'] and ['azure'] is served by the
    local branch, which needs no SDK and no credential setting: issuance
    succeeds exactly when [reverse] finds the local-upload route, the URL is
    that route, prefixed by [BASE_URL] when the setting exists, and a failing
    [reverse] is raised as it is. *)
Theorem local_issuance E self tid fn ct sz w :
  backend self ≠ "aws" → backend self ≠ "gcs" → backend self ≠ "azure" →
  generate_upload_config E self tid fn ct sz w =
    match reverse_local_upload E tid with
    | Ok path =>
        (Ok (mkUploadConfig
               (match BASE_URL (settings E) with
                | Some base => base +:+ path
                | None => path
                end) "PUT" [] []), w)
    | Raise e => (Raise e, w)
    end.
Proof.
  intros Ha Hg Hz. unfold generate_upload_config.
  destruct (String.eqb_spec (backend self) "aws"); [done|].
  destruct (String.eqb_spec (backend self) "gcs"); [done|].
  destruct (String.eqb_spec (backend self) "azure"); [done|].
  unfold _get_local_upload_url; unfold_monad.
  by destruct (reverse_local_upload E tid).
Qed.

Lemma local_issuance_witness :
  generate_upload_config (named_env "minio" 1%N)
    (CloudStorageService_init (named_env "minio" 1%N))
    (Uuid.str 1%N) "report.pdf" "application/pdf" 1024 empty_world =
  (Ok (mkUploadConfig "/api/upload/local/00000000-0000-0000-0000-000000000001/"
         "PUT" [] []), empty_world).
Proof.
  apply (local_issuance (named_env "minio" 1%N)
           (CloudStorageService_init (named_env "minio" 1%N))
           (Uuid.str 1%N) "report.pdf" "application/pdf" 1024 empty_world);
    discriminate.
Defined.

(** The grant depends on the filename through its basename only: two
    filenames with the same last component get the same key and therefore
    the same outcome of issuance, on every backend. *)
Lemma issuance_ignores_directories E self tid fn fn' ct sz w :
  os_path.basename fn = os_path.basename fn' →
  _generate_key self tid fn = _generate_key self tid fn' ∧
  generate_upload_config E self tid fn ct sz w =
  generate_upload_config E self tid fn' ct sz w.
Proof.
  intros Hbase.
  assert (Hkey : _generate_key self tid fn = _generate_key self tid fn')
    by (by rewrite !generate_key_shape, Hbase).
  split; [done|]. unfold generate_upload_config. by rewrite Hkey.
Qed.

Lemma issuance_ignores_directories_witness :
  _generate_key (mkCloudStorageService "aws") "7d9c" "a/b/report.pdf" =
  _generate_key (mkCloudStorageService "aws") "7d9c" "../report.pdf".
Proof.
  apply (issuance_ignores_directories (aws_env [] 1%N) (mkCloudStorageService "aws")
           "7d9c" "a/b/report.pdf" "../report.pdf" "application/pdf" 1024 empty_world).
  reflexivity.
Defined.

(** ** [CloudStorageService.check_exists] and [_check_aws] *)

(** What the existence check can do to the world: nothing, or one probe. *)
Lemma check_exists_effects E self key w r w' :
  check_exists E self key w = (r, w') →
  w' = w ∨ ∃ bucket, w' = emit (S3HeadObject bucket key) w.
Proof.
  unfold_storage; unfold_monad. intros H.
  repeat case_match; simplify_eq/=; eauto.
Qed.

(** X6. On ['aws'] the check answers [True] only after a [head_object]
    probe for that very key was sent and returned.  It answers [False]
    without any probe when boto3 is not importable or the bucket setting is
    undefined, and [False] after the probe when the probe raises, whatever
    the exception. *)
Theorem aws_check_answers E self key w :
  backend self = "aws" →
  (∀ w', check_exists E self key w = (Ok true, w') →
         ∃ client access secret s3 bucket,
           boto3 E = Some client ∧ client access secret None = Ok s3 ∧
           AWS_STORAGE_BUCKET_NAME (settings E) = Some bucket ∧
           head_object s3 bucket key = Ok tt ∧
           w' = emit (S3HeadObject bucket key) w) ∧
  (boto3 E = None → check_exists E self key w = (Ok false, w)) ∧
  (∀ client access secret s3,
     boto3 E = Some client →
     AWS_ACCESS_KEY_ID (settings E) = Some access →
     AWS_SECRET_ACCESS_KEY (settings E) = Some secret →
     client access secret None = Ok s3 →
     (AWS_STORAGE_BUCKET_NAME (settings E) = None →
      check_exists E self key w = (Ok false, w)) ∧
     (∀ bucket e,
        AWS_STORAGE_BUCKET_NAME (settings E) = Some bucket →
        head_object s3 bucket key = Raise e →
        check_exists E self key w = (Ok false, emit (S3HeadObject bucket key) w))).
Proof.
  intros Hb. unfold check_exists. rewrite Hb. simpl.
  split; [|split].
  - intros w' H. by apply check_aws_true_only_if_probe_ok in H.
  - intros Hsdk. unfold _check_aws. by rewrite Hsdk.
  - intros client access secret s3 Hc Ha Hs Hcl. split.
    + intros Hbk. unfold _check_aws; unfold_monad. by rewrite Hc, Ha, Hs, Hcl, Hbk.
    + intros bucket e Hbk Hh.
      by apply (check_aws_probe_error E self key w client access secret s3 bucket e).
Qed.

Lemma aws_check_answers_witness :
  check_exists (aws_env ["k1"] 1%N) (CloudStorageService_init (aws_env ["k1"] 1%N))
    "k2" empty_world
  = (Ok false, emit (S3HeadObject "bucket" "k2") empty_world).
Proof.
  apply (proj2 (proj2 (proj2 (aws_check_answers (aws_env ["k1"] 1%N)
           (CloudStorageService_init (aws_env ["k1"] 1%N)) "k2" empty_world eq_refl))
           (fun _ _ _ => Ok (s3_over ["k1"])) "AKIA" "secret" (s3_over ["k1"])
           eq_refl eq_refl eq_refl eq_refl)
         "bucket"
         (VendorError "An error occurred (404) when calling the HeadObject operation: Not Found")
         eq_refl eq_refl).
Defined.

(** X7. The check itself raises in exactly these cases, and then leaves the
    world untouched: the backend is ['default'] (the method it calls does
    not exist), or the backend is ['aws'], boto3 is importable, and an
    access-key setting is undefined or the client cannot be built.  Every
    other case returns a boolean. *)
Theorem check_exists_raises_iff E self key w :
  (∃ e w', check_exists E self key w = (Raise e, w')) ↔
  backend self = "default" ∨
  (backend self = "aws" ∧
   ∃ client, boto3 E = Some client ∧
     (AWS_ACCESS_KEY_ID (settings E) = None ∨
      AWS_SECRET_ACCESS_KEY (settings E) = None ∨
      ∃ access secret e,
        AWS_ACCESS_KEY_ID (settings E) = Some access ∧
        AWS_SECRET_ACCESS_KEY (settings E) = Some secret ∧
        client access secret None = Raise e)).
Proof.
  unfold check_exists.
  destruct (String.eqb_spec (backend self) "aws") as [Haws|Haws].
  - split.
    + intros (e & w' & H). right. split; [done|].
      unfold _check_aws in H; unfold_monad.
      repeat case_match; simplify_eq/=; eauto 10.
    + intros [Hd|(_ & client & Hc & Hcase)]; [congruence|].
      unfold _check_aws; unfold_monad. rewrite Hc.
      destruct Hcase as [->|[Hs|(a & s0 & e & -> & -> & ->)]]; eauto.
      destruct (AWS_ACCESS_KEY_ID (settings E)); rewrite ?Hs; eauto.
  - destruct (String.eqb_spec (backend self) "default") as [Hd|Hd].
    + split; [by left|]. intros _. unfold raise. eauto.
    + split.
      * by intros (e & w' & H).
      * intros [?|[? _]]; congruence.
Qed.

(** The same, with the world: a raising check has changed nothing. *)
Lemma check_exists_raise_keeps_world E self key w e w' :
  check_exists E self key w = (Raise e, w') → w' = w.
Proof.
  unfold_storage; unfold_monad. intros H.
  repeat case_match; simplify_eq/=; done.
Qed.

(** ** [UploadCompleteView.post], every outcome *)

(** X8. With [STORAGE_BACKEND = 'default'], complete can never succeed: for
    a transaction the caller owns it raises [AttributeError] (the client
    receives a 500), and the row keeps its status. *)
Theorem complete_on_default_backend E request tid t w :
  configured_backend E = "default" →
  req_transaction_id request = TidUuid tid →
  db w !! tid = Some t → user t = req_user request →
  UploadCompleteView_post E request w =
    (Raise (AttributeError "'CloudStorageService' object has no attribute '_check_local'"), w) ∧
  (dispatch (UploadCompleteView_post E request) w) =
    (mkResponse [] HTTP_500_INTERNAL_SERVER_ERROR, w).
Proof.
  intros Hb Htid Hdb Hu.
  assert (H : UploadCompleteView_post E request w =
    (Raise (AttributeError "'CloudStorageService' object has no attribute '_check_local'"), w)).
  { rewrite (complete_post_owned E request tid t w Htid Hdb Hu).
    unfold check_exists, CloudStorageService_init. simpl backend. by rewrite Hb. }
  split; [done|]. unfold dispatch. by rewrite H.
Qed.

Lemma complete_on_default_backend_witness :
  (dispatch (UploadCompleteView_post (named_env "default" 2%N) (complete_request 7%N 1%N))
     (one_row_world (sample_row PENDING None "default"))) =
  (mkResponse [] HTTP_500_INTERNAL_SERVER_ERROR,
   one_row_world (sample_row PENDING None "default")).
Proof.
  apply (complete_on_default_backend (named_env "default" 2%N) (complete_request 7%N 1%N)
           1%N (sample_row PENDING None "default")
           (one_row_world (sample_row PENDING None "default")));
    reflexivity.
Defined.

Lemma complete_world E request w res w' :
  UploadCompleteView_post E request w = (res, w') →
  media w' = media w ∧
  (trace w' = trace w ∨
   ∃ bucket key, trace w' = (trace w ++ [S3HeadObject bucket key])%list) ∧
  (db w' = db w ∨
   ∃ tid t,
     req_transaction_id request = TidUuid tid ∧
     db w !! tid = Some t ∧ user t = req_user request ∧
     res = Ok (complete_success t) ∧
     db w' = <[id t := completed_row E t]> (db w)).
Proof.
  intros Hpost.
  destruct (req_transaction_id request) as [|raw|tid] eqn:Htid.
  - unfold UploadCompleteView_post in Hpost. rewrite Htid in Hpost.
    unfold ret in Hpost. simplify_eq. auto.
  - unfold UploadCompleteView_post in Hpost. rewrite Htid in Hpost.
    unfold raise in Hpost. simplify_eq. auto.
  - destruct (db w !! tid) as [t|] eqn:Hdb.
    + destruct (N.eqb_spec (user t) (req_user request)) as [Hu|Hu].
      * rewrite (complete_post_owned E request tid t w Htid Hdb Hu) in Hpost.
        destruct (check_exists E (CloudStorageService_init E) (object_key t) w)
          as [r w1] eqn:Hchk.
        pose proof (check_exists_effects _ _ _ _ _ _ Hchk) as Heff.
        assert (Hw1 : db w1 = db w ∧ media w1 = media w ∧
                      (trace w1 = trace w ∨
                       ∃ bucket key, trace w1 = (trace w ++ [S3HeadObject bucket key])%list)).
        { destruct Heff as [->|[bucket ->]]; simpl; eauto 10. }
        destruct Hw1 as (Hd1 & Hm1 & Ht1).
        destruct r as [[|]|e].
        -- destruct (db_accepts E (completed_row E t)); simplify_eq/=.
           ++ split; [done|]. split; [done|]. right. exists tid, t.
              by rewrite Hd1.
           ++ auto.
        -- simplify_eq. auto.
        -- simplify_eq. auto.
      * unfold UploadCompleteView_post in Hpost. rewrite Htid in Hpost.
        unfold bind, get_object_or_404 in Hpost. rewrite Hdb in Hpost.
        destruct (N.eqb_spec (user t) (req_user request)); [done|].
        simplify_eq. auto.
    + unfold UploadCompleteView_post in Hpost. rewrite Htid in Hpost.
      unfold bind, get_object_or_404 in Hpost. rewrite Hdb in Hpost.
      simplify_eq. auto.
Qed.

(** X9. Whatever the request and the outcome, complete never writes the
    media storage and never logs; it sends at most one probe; and it
    changes the transaction table only when it answers success, and then
    only by writing back the row it fetched for the caller, marked
    Completed and stamped. *)
Theorem complete_effects E request w res w' :
  UploadCompleteView_post E request w = (res, w') →
  media w' = media w ∧
  (trace w' = trace w ∨
   ∃ bucket key, trace w' = (trace w ++ [S3HeadObject bucket key])%list) ∧
  (db w' = db w ∨
   ∃ tid t,
     req_transaction_id request = TidUuid tid ∧
     db w !! tid = Some t ∧ user t = req_user request ∧
     res = Ok (complete_success t) ∧
     db w' = <[id t := completed_row E t]> (db w)).
Proof. apply complete_world. Qed.

Lemma complete_effects_witness :
  media (UploadCompleteView_post (aws_env [] 2%N) (complete_request 7%N 1%N)
           (one_row_world (sample_row PENDING None "aws"))).2 = ∅.
Proof.
  destruct (complete_effects (aws_env [] 2%N) (complete_request 7%N 1%N)
              (one_row_world (sample_row PENDING None "aws"))
              (UploadCompleteView_post (aws_env [] 2%N) (complete_request 7%N 1%N)
                 (one_row_world (sample_row PENDING None "aws"))).1
              (UploadCompleteView_post (aws_env [] 2%N) (complete_request 7%N 1%N)
                 (one_row_world (sample_row PENDING None "aws"))).2)
    as (Hm & _ & _).
  - by destruct (UploadCompleteView_post _ _ _).
  - exact Hm.
Defined.

(** ** [UploadInitView.post], every outcome *)

Lemma init_world E request w res w' :
  UploadInitView_post E request w = (res, w') →
  media w' = media w ∧
  (∃ logs, trace w' = (trace w ++ logs)%list ∧
           ∀ ev, ev ∈ logs → ∃ msg, ev = LogError msg) ∧
  ((∃ r fn sz,
      res = Ok r ∧ status_code r = HTTP_200_OK ∧
      req_filename request = Some fn ∧ req_file_size request = Some sz ∧
      db w !! uuid4 E = None ∧
      db w' = <[uuid4 E := keyed_row E request fn sz]> (db w)) ∨
   (db w' = db w ∧
    ∀ r, res = Ok r →
         status_code r = HTTP_400_BAD_REQUEST ∨
         status_code r = HTTP_500_INTERNAL_SERVER_ERROR)).
Proof.
  intros Hpost.
  assert (Hnil : ∀ w0 : World, ∃ logs, trace w0 = (trace w0 ++ logs)%list ∧
                   ∀ ev, ev ∈ logs → ∃ msg, ev = LogError msg).
  { intros w0. exists []. rewrite app_nil_r. split; [done|]. by intros ev ?%elem_of_nil. }
  destruct (init_fields_missing request) eqn:Hm.
  { rewrite (init_post_rejected E request w Hm) in Hpost. simplify_eq.
    split; [done|]. split; [apply Hnil|]. right. split; [done|].
    intros r [= <-]. by left. }
  destruct (init_fields_present request Hm) as (fn & sz & Hfn & Hsz & Ht & Hnz).
  rewrite (init_post_validated E request fn sz w Hfn Hsz Ht Hnz) in Hpost.
  destruct (db w !! uuid4 E) eqn:Hfresh.
  { simplify_eq. split; [done|]. split; [apply Hnil|]. right. by split. }
  destruct (db_accepts E (new_row E request fn sz)).
  2: { simplify_eq. split; [done|]. split; [apply Hnil|]. right. by split. }
  destruct (generate_upload_config _ _ _ _ _ _ _) as [r1 w1] eqn:Hissue.
  assert (Hdel : ∀ d, d = <[uuid4 E := new_row E request fn sz]> (db w) →
                      delete (uuid4 E) d = db w).
  { intros d ->. by apply delete_insert_id. }
  apply issuance_world in Hissue as [-> | (_ & e & -> & ->)].
  - destruct r1 as [config|e].
    + destruct (db_accepts E (keyed_row E request fn sz)); simplify_eq/=.
      * split; [done|]. split; [apply Hnil|]. left.
        eexists _, fn, sz. repeat split; try done. by rewrite insert_insert_eq.
      * split; [done|]. split.
        { eexists [_]. split; [reflexivity|].
          intros ev ->%list_elem_of_singleton. eauto. }
        right. split; [by apply Hdel|]. intros r [= <-]. by right.
    + simplify_eq/=. split; [done|]. split.
      { eexists [_]. split; [reflexivity|].
        intros ev ->%list_elem_of_singleton. eauto. }
      right. split; [by apply Hdel|]. intros r [= <-]. by right.
  - simplify_eq/=. split; [done|]. split.
    { eexists [_; _]. rewrite <- app_assoc. split; [reflexivity|].
      intros ev [-> | ->%list_elem_of_singleton]%elem_of_cons; eauto. }
    right. split; [by apply Hdel|]. intros r [= <-]. by right.
Qed.

(** X10. Every outcome of initiate is one of two kinds.  Either it
    answers 200, and then the id drawn for the call was fresh and the table
    is the old one plus exactly the new row under that id; or the table is
    exactly what it was, and an answer, if there is one, is a 400 or a 500.
    In no case is the media storage written or a probe sent: the trace
    grows by log lines only. *)
Theorem init_outcomes E request w res w' :
  UploadInitView_post E request w = (res, w') →
  media w' = media w ∧
  (∃ logs, trace w' = (trace w ++ logs)%list ∧
           ∀ ev, ev ∈ logs → ∃ msg, ev = LogError msg) ∧
  ((∃ r fn sz,
      res = Ok r ∧ status_code r = HTTP_200_OK ∧
      req_filename request = Some fn ∧ req_file_size request = Some sz ∧
      db w !! uuid4 E = None ∧
      db w' = <[uuid4 E := keyed_row E request fn sz]> (db w)) ∨
   (db w' = db w ∧
    ∀ r, res = Ok r →
         status_code r = HTTP_400_BAD_REQUEST ∨
         status_code r = HTTP_500_INTERNAL_SERVER_ERROR)).
Proof. apply init_world. Qed.

Lemma init_outcomes_witness :
  db (UploadInitView_post (aws_unsigned_env 1%N) (init_request 7%N "report.pdf" 1024)
        empty_world).2 = ∅ ∧
  media (UploadInitView_post (aws_unsigned_env 1%N) (init_request 7%N "report.pdf" 1024)
           empty_world).2 = ∅.
Proof.
  destruct (init_outcomes (aws_unsigned_env 1%N) (init_request 7%N "report.pdf" 1024)
              empty_world
              (UploadInitView_post (aws_unsigned_env 1%N)
                 (init_request 7%N "report.pdf" 1024) empty_world).1
              (UploadInitView_post (aws_unsigned_env 1%N)
                 (init_request 7%N "report.pdf" 1024) empty_world).2)
    as (Hm & _ & [(r & fn & sz & Hres & H200 & _)|[Hdb _]]).
  - by destruct (UploadInitView_post _ _ _).
  - exfalso. vm_compute in Hres. injection Hres as <-. discriminate H200.
  - split; [exact Hdb | exact Hm].
Defined.

(** ** [LocalUploadView] *)

(** The backend gate comes first: when the configured backend is not
    ['local'], the endpoint answers 403 "Local upload not enabled" for every
    transaction id and every caller, existing or not, owned or not, and
    stores nothing. *)
Lemma local_upload_disabled E request tid w :
  configured_backend E ≠ "local" →
  LocalUploadView_handle_upload E request tid w =
    (Ok (mkResponse [("error", JStr "Local upload not enabled")] HTTP_403_FORBIDDEN), w).
Proof.
  intros Hb. unfold LocalUploadView_handle_upload.
  by destruct (String.eqb_spec (configured_backend E) "local").
Qed.

Lemma local_upload_disabled_witness :
  LocalUploadView_handle_upload (aws_env [] 2%N) (upload_request 7%N [Byte.x01]) 1%N
    (one_row_world (sample_row PENDING None "aws")) =
  (Ok (mkResponse [("error", JStr "Local upload not enabled")] HTTP_403_FORBIDDEN),
   one_row_world (sample_row PENDING None "aws")).
Proof.
  apply (local_upload_disabled (aws_env [] 2%N) (upload_request 7%N [Byte.x01]) 1%N).
  discriminate.
Defined.

(** X11. With the local backend enabled, an upload addressed to a
    transaction of another user raises the same [Http404] as one addressed
    to an id that does not exist, and in both cases nothing is handed to the
    storage: the world is unchanged. *)
Theorem local_upload_foreign_is_not_found E request tid w :
  configured_backend E = "local" →
  (db w !! tid = None ∨ ∃ t, db w !! tid = Some t ∧ user t ≠ req_user request) →
  LocalUploadView_handle_upload E request tid w = (Raise (Http404 not_found_msg), w).
Proof.
  intros Hb Hcase. unfold LocalUploadView_handle_upload, get_object_or_404; unfold_monad.
  rewrite Hb. cbn [String.eqb Ascii.eqb Bool.eqb negb andb].
  destruct Hcase as [-> | (t & -> & Hu)]; [done|].
  by destruct (N.eqb_spec (user t) (req_user request)).
Qed.

Lemma local_upload_foreign_is_not_found_witness :
  LocalUploadView_handle_upload (local_env 2%N) (upload_request 8%N [Byte.x01]) 1%N
    (one_row_world (sample_row PENDING None "local")) =
  (Raise (Http404 not_found_msg), one_row_world (sample_row PENDING None "local")).
Proof.
  apply (local_upload_foreign_is_not_found (local_env 2%N)
           (upload_request 8%N [Byte.x01]) 1%N); [reflexivity|].
  right. exists (sample_row PENDING None "local"). split; [reflexivity|discriminate].
Defined.

Lemma local_upload_world E request tid w res w' :
  LocalUploadView_handle_upload E request tid w = (res, w') →
  db w' = db w ∧ trace w' = trace w ∧
  ((w' = w ∧
    (res = Ok (mkResponse [("error", JStr "Local upload not enabled")] HTTP_403_FORBIDDEN)
     ∨ res = Raise (Http404 not_found_msg))) ∨
   ∃ t,
     configured_backend E = "local" ∧
     db w !! tid = Some t ∧ user t = req_user request ∧
     match storage_save E (media w) (object_key t) (req_body request) with
     | Ok (name, files) => res = Ok uploaded_response ∧ media w' = files
     | Raise e =>
         res = Raise e ∧
         media w' = storage_left E (media w) (object_key t) (req_body request)
     end).
Proof.
  unfold LocalUploadView_handle_upload.
  destruct (String.eqb_spec (configured_backend E) "local") as [Hb|Hb]; simpl.
  2: { unfold ret. intros [= <- <-].
       split; [done|]. split; [done|]. left. split; [done|]. by left. }
  unfold get_object_or_404, default_storage_save; unfold_monad.
  destruct (db w !! tid) as [t|] eqn:Hdb.
  2: { intros [= <- <-].
       split; [done|]. split; [done|]. left. split; [done|]. by right. }
  destruct (N.eqb_spec (user t) (req_user request)) as [Hu|Hu].
  2: { intros [= <- <-].
       split; [done|]. split; [done|]. left. split; [done|]. by right. }
  intros H.
  assert (Hsave : match storage_save E (media w) (object_key t) (req_body request) with
                  | Ok (name, files) =>
                      res = Ok uploaded_response ∧ w' = set_media files w
                  | Raise e =>
                      res = Raise e ∧
                      w' = set_media (storage_left E (media w) (object_key t)
                                        (req_body request)) w
                  end).
  { destruct (negb _);
      destruct (storage_save E (media w) (object_key t) (req_body request))
        as [[name files]|e]; by simplify_eq/=. }
  clear H.
  destruct (storage_save E (media w) (object_key t) (req_body request))
    as [[name files]|e] eqn:Hs; destruct Hsave as [-> ->];
    (split; [done|]; split; [done|]; right; exists t; rewrite Hs; repeat split; done).
Qed.

(** X12. Whatever the request and the outcome, the upload endpoint never
    writes the transaction table (an uploaded transaction stays Pending),
    never logs and never probes.  It calls [default_storage.save] at most
    once: only with the local backend enabled, only for a transaction the
    caller owns, with that transaction's object key and the whole request
    body; in every other case it answers 403 or raises [Http404] and the
    world is unchanged.  After that one call the media storage is what the
    call left: the files the save returned, on a 200; and when the save
    raises, the exception is raised as it is and what the storage had
    written before failing stays (the view has no cleanup). *)
Theorem local_upload_effects E request tid w res w' :
  LocalUploadView_handle_upload E request tid w = (res, w') →
  db w' = db w ∧ trace w' = trace w ∧
  ((w' = w ∧
    (res = Ok (mkResponse [("error", JStr "Local upload not enabled")] HTTP_403_FORBIDDEN)
     ∨ res = Raise (Http404 not_found_msg))) ∨
   ∃ t,
     configured_backend E = "local" ∧
     db w !! tid = Some t ∧ user t = req_user request ∧
     match storage_save E (media w) (object_key t) (req_body request) with
     | Ok (name, files) => res = Ok uploaded_response ∧ media w' = files
     | Raise e =>
         res = Raise e ∧
         media w' = storage_left E (media w) (object_key t) (req_body request)
     end).
Proof. apply local_upload_world. Qed.

(** An upload onto the disk that fills up: the exception escapes the view,
    the row is as it was, and the byte written before the failure stays. *)
Lemma local_upload_effects_witness :
  let t := sample_row PENDING None "local" in
  let after := LocalUploadView_handle_upload (full_disk_env 2%N)
                 (upload_request 7%N [Byte.x01; Byte.x02; Byte.x03]) 1%N
                 (one_row_world t) in
  after.1 = Raise (OSError "[Errno 28] No space left on device") ∧
  db after.2 = db (one_row_world t) ∧
  media after.2 = {[ object_key t := [Byte.x01] ]}.
Proof.
  cbv zeta.
  destruct (local_upload_effects (full_disk_env 2%N)
              (upload_request 7%N [Byte.x01; Byte.x02; Byte.x03]) 1%N
              (one_row_world (sample_row PENDING None "local"))
              (Raise (OSError "[Errno 28] No space left on device"))
              (set_media {[ object_key (sample_row PENDING None "local") := [Byte.x01] ]}
                 (one_row_world (sample_row PENDING None "local"))))
    as (Hdb & _ & _).
  - vm_compute. reflexivity.
  - split; [vm_compute; reflexivity|]. split; [|vm_compute; reflexivity].
    rewrite <- Hdb. vm_compute. reflexivity.
Defined.

(** ** Invariants of the table under every route *)

(** Every request, on every route and method, changes the table by one
    [table_step]. *)
Lemma as_view_table_step E r m request w :
  table_step E request (db w) (db (as_view E r m request w).2).
Proof.
  assert (Hinit : table_step E request (db w) (db (UploadInitView_post E request w).2)).
  { destruct (UploadInitView_post E request w) as [res w'] eqn:Hpost.
    apply init_world in Hpost
      as (_ & _ & [(r0 & fn & sz & _ & _ & _ & _ & Hfresh & Hdb) | [Hdb _]]).
    - right; left. split; [done|]. by exists fn, sz.
    - by left. }
  assert (Hcomp : table_step E request (db w) (db (UploadCompleteView_post E request w).2)).
  { destruct (UploadCompleteView_post E request w) as [res w'] eqn:Hpost.
    apply complete_world in Hpost as (_ & _ & [Hdb | (tid & t & _ & Hdb & _ & _ & Hdb')]).
    - by left.
    - right; right. by exists tid, t. }
  assert (Hup : ∀ tid, table_step E request (db w)
                         (db (LocalUploadView_handle_upload E request tid w).2)).
  { intros tid. destruct (LocalUploadView_handle_upload E request tid w) as [res w'] eqn:Hpost.
    apply local_upload_world in Hpost as (Hdb & _). by left. }
  destruct r, m; simpl; try (by left); auto.
Qed.

Lemma table_step_keyed E request d d' :
  table_step E request d d' → keyed_by_id d → keyed_by_id d'.
Proof.
  intros [-> | [(Hfresh & fn & sz & ->) | (tid & t & Hdb & ->)]] Hk; [done| |].
  - intros k t [[<- <-] | [_ Ht]]%lookup_insert_Some; [done|by apply Hk].
  - intros k t' [[<- <-] | [_ Ht]]%lookup_insert_Some; [done|by apply Hk].
Qed.

Lemma table_step_stamped E request d d' :
  table_step E request d d' → stamped_iff_completed d → stamped_iff_completed d'.
Proof.
  intros [-> | [(Hfresh & fn & sz & ->) | (tid & t & Hdb & ->)]] Hs; [done| |].
  - intros k t [[<- <-] | [_ Ht]]%lookup_insert_Some; [|by apply (Hs k)].
    simpl. split; [done|]. by intros [? ?].
  - intros k t' [[<- <-] | [_ Ht]]%lookup_insert_Some; [|by apply (Hs k)].
    simpl. split; [eauto|done].
Qed.

(** A table in which each row sits under its own id is still such a table
    after the request (the ORM calls alone ensure it). *)
Lemma requests_keep_table_keyed E r m request w :
  keyed_by_id (db w) → keyed_by_id (db (as_view E r m request w).2).
Proof. exact (table_step_keyed E request _ _ (as_view_table_step E r m request w)). Qed.

Lemma requests_keep_table_keyed_witness :
  keyed_by_id (db (as_view (local_env 1%N) upload_init POST
                     (init_request 7%N "report.pdf" 1024) empty_world).2).
Proof.
  apply (requests_keep_table_keyed (local_env 1%N) upload_init POST
           (init_request 7%N "report.pdf" 1024) empty_world).
  intros k t H. simpl in H. by rewrite lookup_empty in H.
Defined.

(** X14. Under every route and HTTP method, the rule "a row has a
    completion time exactly when its status is Completed" survives the
    request: initiate inserts Pending rows without a time, and complete sets
    status and time together. *)
Theorem requests_keep_stamp_rule E r m request w :
  stamped_iff_completed (db w) → stamped_iff_completed (db (as_view E r m request w).2).
Proof. exact (table_step_stamped E request _ _ (as_view_table_step E r m request w)). Qed.

Lemma requests_keep_stamp_rule_witness :
  stamped_iff_completed
    (db (as_view (local_env 2%N) upload_complete POST (complete_request 7%N 1%N)
           (one_row_world (sample_row PENDING None "local"))).2).
Proof.
  apply (requests_keep_stamp_rule (local_env 2%N) upload_complete POST
           (complete_request 7%N 1%N) (one_row_world (sample_row PENDING None "local"))).
  intros k t H. unfold one_row_world in H. cbn [db] in H.
  apply lookup_singleton_Some in H as [<- <-]. simpl.
  split; [discriminate|]. by intros [? ?].
Defined.

(** X15. No request ever removes or rewrites an existing transaction, save
    for complete marking it Completed: under every route and method, a row
    present before the request is present afterwards under the same id, with
    the same owner, object key, filename, size, content type, creation time
    and backend; it is either the very same row or that row marked Completed
    and stamped; so a Completed row stays Completed, and no row ever becomes
    Failed that was not. *)
Theorem requests_preserve_rows E r m request w k t :
  keyed_by_id (db w) → db w !! k = Some t →
  ∃ t',
    db (as_view E r m request w).2 !! k = Some t' ∧
    (t' = t ∨ t' = completed_row E t) ∧
    id t' = id t ∧ user t' = user t ∧ object_key t' = object_key t ∧
    filename t' = filename t ∧ file_size t' = file_size t ∧
    content_type t' = content_type t ∧ created_at t' = created_at t ∧
    backend_used t' = backend_used t ∧
    (status t = COMPLETED → status t' = COMPLETED) ∧
    (status t' = FAILED → status t = FAILED).
Proof.
  intros Hk Hdb.
  destruct (as_view_table_step E r m request w)
    as [-> | [(Hfresh & fn & sz & ->) | (tid & t0 & Hdb0 & ->)]].
  - exists t. repeat split; auto.
  - exists t. rewrite lookup_insert_ne
      by (intros Heq; unfold uuid in *; congruence).
    repeat split; auto.
  - pose proof (Hk _ _ Hdb0) as Hid.
    destruct (decide (k = tid)) as [->|Hne].
    + assert (t0 = t) as -> by congruence.
      exists (completed_row E t). rewrite Hid, lookup_insert_eq.
      repeat split; auto. discriminate.
    + exists t. rewrite lookup_insert_ne by congruence. repeat split; auto.
Qed.

Lemma requests_preserve_rows_witness :
  ∃ t',
    db (as_view (local_env 2%N) upload_init POST (init_request 8%N "other.txt" 5)
          (one_row_world (sample_row COMPLETED (Some 1699999500) "local"))).2 !! 1%N
      = Some t' ∧
    status t' = COMPLETED.
Proof.
  destruct (requests_preserve_rows (local_env 2%N) upload_init POST
              (init_request 8%N "other.txt" 5)
              (one_row_world (sample_row COMPLETED (Some 1699999500) "local"))
              1%N (sample_row COMPLETED (Some 1699999500) "local"))
    as (t' & Hdb & _ & _ & _ & _ & _ & _ & _ & _ & _ & Hst & _).
  - intros k t H. unfold one_row_world in H. cbn [db] in H.
    by apply lookup_singleton_Some in H as [<- <-].
  - reflexivity.
  - exists t'. split; [exact Hdb | exact (Hst eq_refl)].
Defined.

(** ** How the endpoints compose *)

(** The local branch serves every backend name without an SDK branch. *)
Lemma generate_upload_config_fallback E tid fn ct sz w path :
  configured_backend E ≠ "aws" → configured_backend E ≠ "gcs" →
  configured_backend E ≠ "azure" →
  reverse_local_upload E tid = Ok path →
  generate_upload_config E (CloudStorageService_init E) tid fn ct sz w =
    (Ok (mkUploadConfig (from_option (fun base => base +:+ path) path (BASE_URL (settings E)))
           "PUT" [] []), w).
Proof.
  intros Ha Hg Hz Hrev. unfold generate_upload_config, CloudStorageService_init.
  cbn [backend].
  destruct (String.eqb_spec (configured_backend E) "aws"); [done|].
  destruct (String.eqb_spec (configured_backend E) "gcs"); [done|].
  destruct (String.eqb_spec (configured_backend E) "azure"); [done|].
  unfold _get_local_upload_url; unfold_monad. rewrite Hrev.
  destruct (BASE_URL (settings E)); reflexivity.
Qed.

Lemma local_upload_owned E request tid t w name files :
  configured_backend E = "local" →
  db w !! tid = Some t → user t = req_user request →
  storage_save E (media w) (object_key t) (req_body request) = Ok (name, files) →
  LocalUploadView_handle_upload E request tid w = (Ok uploaded_response, set_media files w).
Proof.
  intros Hb Hdb Hu Hsave.
  unfold LocalUploadView_handle_upload, get_object_or_404, default_storage_save.
  unfold_monad. rewrite Hb. cbn [String.eqb Ascii.eqb Bool.eqb negb andb].
  rewrite Hdb, Hu, N.eqb_refl.
  destruct (negb _); by rewrite Hsave.
Qed.

(** X16. The three endpoints in sequence on the local backend: a valid
    initiate with a fresh id, then an upload by the same user to the returned
    id that the storage accepts, then complete by the same user.  Each step
    answers 200; complete reports as [file_url] the key derived from the id
    and the filename; at the end the row is Completed and the media storage
    is what the storage returned for that key and the uploaded body. *)
Theorem local_upload_round_trip E init_req up_req done_req fn sz path name files w :
  req_filename init_req = Some fn → PyStr.truthy fn = true →
  req_file_size init_req = Some sz → sz ≠ 0 →
  configured_backend E = "local" →
  reverse_local_upload E (Uuid.str (uuid4 E)) = Ok path →
  db w !! uuid4 E = None →
  db_accepts E (new_row E init_req fn sz) = true →
  db_accepts E (keyed_row E init_req fn sz) = true →
  db_accepts E (completed_row E (keyed_row E init_req fn sz)) = true →
  req_user up_req = req_user init_req →
  req_user done_req = req_user init_req →
  req_transaction_id done_req = TidUuid (uuid4 E) →
  storage_save E (media w)
    (_generate_key (CloudStorageService_init E) (Uuid.str (uuid4 E)) fn)
    (req_body up_req) = Ok (name, files) →
  ∃ r w1 w2 w3,
    UploadInitView_post E init_req w = (Ok r, w1) ∧
    status_code r = HTTP_200_OK ∧
    In ("transaction_id", JUuid (uuid4 E)) (resp_data r) ∧
    LocalUploadView_handle_upload E up_req (uuid4 E) w1 = (Ok uploaded_response, w2) ∧
    UploadCompleteView_post E done_req w2 =
      (Ok (mkResponse
             [("status", JStr "success");
              ("file_url",
               JStr (_generate_key (CloudStorageService_init E) (Uuid.str (uuid4 E)) fn))]
             HTTP_200_OK), w3) ∧
    status <$> db w3 !! uuid4 E = Some COMPLETED ∧
    media w3 = files.
Proof.
  intros Hfn Ht Hsz Hnz Hb Hrev Hfresh Hacc Hacc' Hacc'' Hup Hdone Htid Hsave.
  pose proof (init_local_succeeds E init_req fn sz w path
                Hfn Ht Hsz Hnz Hb Hrev Hfresh Hacc Hacc') as Hinit.
  set (row := keyed_row E init_req fn sz) in *.
  set (w1 := set_db (<[uuid4 E := row]> (db w)) w) in *.
  assert (Hrow1 : db w1 !! uuid4 E = Some row) by apply lookup_insert_eq.
  assert (Hupload : LocalUploadView_handle_upload E up_req (uuid4 E) w1
                    = (Ok uploaded_response, set_media files w1)).
  { apply (local_upload_owned E up_req (uuid4 E) row w1 name files); try done. }
  set (w2 := set_media files w1) in *.
  assert (Hrow2 : db w2 !! uuid4 E = Some row) by exact Hrow1.
  pose proof (complete_post_owned E done_req (uuid4 E) row w2 Htid Hrow2
                (eq_sym Hdone)) as Hcomp.
  rewrite check_exists_unhandled in Hcomp
    by (unfold CloudStorageService_init; simpl; rewrite Hb; discriminate).
  rewrite Hacc'' in Hcomp.
  eexists _, w1, w2, _. split; [exact Hinit|]. split; [done|].
  split; [simpl; auto|]. split; [exact Hupload|]. split; [exact Hcomp|].
  split; [|done]. simpl. by rewrite lookup_insert_eq.
Qed.

Lemma local_upload_round_trip_witness :
  ∃ r w1 w2 w3,
    UploadInitView_post (local_env 1%N) (init_request 7%N "a/report.pdf" 3) empty_world
      = (Ok r, w1) ∧
    status_code r = HTTP_200_OK ∧
    In ("transaction_id", JUuid 1%N) (resp_data r) ∧
    LocalUploadView_handle_upload (local_env 1%N)
      (upload_request 7%N [Byte.x01; Byte.x02; Byte.x03]) 1%N w1
      = (Ok uploaded_response, w2) ∧
    UploadCompleteView_post (local_env 1%N) (complete_request 7%N 1%N) w2 =
      (Ok (mkResponse
             [("status", JStr "success");
              ("file_url", JStr "uploads/00000000-0000-0000-0000-000000000001/report.pdf")]
             HTTP_200_OK), w3) ∧
    status <$> db w3 !! 1%N = Some COMPLETED ∧
    media w3 = {[ "uploads/00000000-0000-0000-0000-000000000001/report.pdf"
                  := [Byte.x01; Byte.x02; Byte.x03] ]}.
Proof.
  exact (local_upload_round_trip (local_env 1%N) (init_request 7%N "a/report.pdf" 3)
           (upload_request 7%N [Byte.x01; Byte.x02; Byte.x03]) (complete_request 7%N 1%N)
           "a/report.pdf" 3 "/api/upload/local/00000000-0000-0000-0000-000000000001/"
           "uploads/00000000-0000-0000-0000-000000000001/report.pdf"
           {[ "uploads/00000000-0000-0000-0000-000000000001/report.pdf"
              := [Byte.x01; Byte.x02; Byte.x03] ]} empty_world
           eq_refl eq_refl eq_refl ltac:(discriminate) eq_refl eq_refl eq_refl eq_refl
           eq_refl eq_refl eq_refl eq_refl eq_refl eq_refl).
Defined.

(** X17. The two places that decide what "local" means disagree on other
    names.  With [STORAGE_BACKEND] set to a name that is none of ['aws'],
    ['gcs'], ['azure'] and ['local'], a valid initiate still succeeds and
    hands out a PUT grant for the local-upload route of the new transaction;
    but the local-upload endpoint then refuses that very upload with 403,
    and stores nothing. *)
Theorem unrecognised_backend_grant_is_refused E init_req up_req fn sz path w :
  req_filename init_req = Some fn → PyStr.truthy fn = true →
  req_file_size init_req = Some sz → sz ≠ 0 →
  configured_backend E ≠ "aws" → configured_backend E ≠ "gcs" →
  configured_backend E ≠ "azure" → configured_backend E ≠ "local" →
  reverse_local_upload E (Uuid.str (uuid4 E)) = Ok path →
  db w !! uuid4 E = None →
  db_accepts E (new_row E init_req fn sz) = true →
  db_accepts E (keyed_row E init_req fn sz) = true →
  ∃ w1,
    UploadInitView_post E init_req w =
      (Ok (mkResponse
             [("upload_url",
               JStr (from_option (fun base => base +:+ path) path (BASE_URL (settings E))));
              ("method", JStr "PUT"); ("headers", JDict []);
              ("transaction_id", JUuid (uuid4 E))] HTTP_200_OK), w1) ∧
    db w1 !! uuid4 E = Some (keyed_row E init_req fn sz) ∧
    LocalUploadView_handle_upload E up_req (uuid4 E) w1 =
      (Ok (mkResponse [("error", JStr "Local upload not enabled")] HTTP_403_FORBIDDEN), w1).
Proof.
  intros Hfn Ht Hsz Hnz Ha Hg Hz Hl Hrev Hfresh Hacc Hacc'.
  rewrite (init_post_validated E init_req fn sz w Hfn Hsz Ht Hnz).
  rewrite Hfresh, Hacc.
  rewrite (generate_upload_config_fallback E _ fn _ sz _ path Ha Hg Hz Hrev).
  rewrite Hacc'. eexists. split; [reflexivity|].
  split; [apply lookup_insert_eq|].
  unfold LocalUploadView_handle_upload.
  by destruct (String.eqb_spec (configured_backend E) "local").
Qed.

Lemma unrecognised_backend_grant_is_refused_witness :
  ∃ w1,
    UploadInitView_post (named_env "minio" 1%N) (init_request 7%N "report.pdf" 3) empty_world =
      (Ok (mkResponse
             [("upload_url",
               JStr "/api/upload/local/00000000-0000-0000-0000-000000000001/");
              ("method", JStr "PUT"); ("headers", JDict []);
              ("transaction_id", JUuid 1%N)] HTTP_200_OK), w1) ∧
    LocalUploadView_handle_upload (named_env "minio" 1%N)
      (upload_request 7%N [Byte.x01; Byte.x02; Byte.x03]) 1%N w1 =
      (Ok (mkResponse [("error", JStr "Local upload not enabled")] HTTP_403_FORBIDDEN), w1).
Proof.
  destruct (unrecognised_backend_grant_is_refused (named_env "minio" 1%N)
              (init_request 7%N "report.pdf" 3)
              (upload_request 7%N [Byte.x01; Byte.x02; Byte.x03])
              "report.pdf" 3 "/api/upload/local/00000000-0000-0000-0000-000000000001/"
              empty_world)
    as (w1 & Hinit & _ & Hup);
    [reflexivity | reflexivity | reflexivity | discriminate | discriminate | discriminate
    | discriminate | discriminate | reflexivity | reflexivity | reflexivity | reflexivity |].
  exists w1. split; [exact Hinit | exact Hup].
Defined.

(** X18. A 404 "File not found in storage" from complete is not final: the
    row is left exactly as it was, and a later complete by the owner, at a
    time when the check answers [True], succeeds as if the first call had
    not happened. *)
Theorem complete_retry_after_miss E1 E2 request tid t w w1 w2 :
  req_transaction_id request = TidUuid tid →
  db w !! tid = Some t → id t = tid → user t = req_user request →
  check_exists E1 (CloudStorageService_init E1) (object_key t) w = (Ok false, w1) →
  check_exists E2 (CloudStorageService_init E2) (object_key t) w1 = (Ok true, w2) →
  db_accepts E2 (completed_row E2 t) = true →
  UploadCompleteView_post E1 request w = (Ok complete_not_in_storage, w1) ∧
  db w1 !! tid = Some t ∧
  UploadCompleteView_post E2 request w1 =
    (Ok (complete_success t), set_db (<[tid := completed_row E2 t]> (db w)) w2).
Proof.
  intros Htid Hdb Hid Hu Hmiss Hhit Hacc.
  pose proof (check_exists_frame E1 (CloudStorageService_init E1) (object_key t) w) as [Hf1 _].
  rewrite Hmiss in Hf1. simpl in Hf1.
  pose proof (check_exists_frame E2 (CloudStorageService_init E2) (object_key t) w1) as [Hf2 _].
  rewrite Hhit in Hf2. simpl in Hf2.
  assert (Hdb1 : db w1 !! tid = Some t) by (by rewrite Hf1).
  split; [|split; [done|]].
  - rewrite (complete_post_owned E1 request tid t w Htid Hdb Hu). by rewrite Hmiss.
  - rewrite (complete_post_owned E2 request tid t w1 Htid Hdb1 Hu).
    by rewrite Hhit, Hacc, Hid, Hf2, Hf1.
Qed.

Lemma complete_retry_after_miss_witness :
  let t := sample_row PENDING None "aws" in
  let w1 := emit (S3HeadObject "bucket" (object_key t)) (one_row_world t) in
  UploadCompleteView_post (aws_env [] 2%N) (complete_request 7%N 1%N) (one_row_world t)
    = (Ok complete_not_in_storage, w1) ∧
  UploadCompleteView_post (aws_env [object_key t] 2%N) (complete_request 7%N 1%N) w1
    = (Ok (complete_success t),
       set_db (<[1%N := completed_row (aws_env [object_key t] 2%N) t]> (db (one_row_world t)))
         (emit (S3HeadObject "bucket" (object_key t)) w1)).
Proof.
  cbv zeta.
  destruct (complete_retry_after_miss (aws_env [] 2%N)
              (aws_env [object_key (sample_row PENDING None "aws")] 2%N)
              (complete_request 7%N 1%N) 1%N (sample_row PENDING None "aws")
              (one_row_world (sample_row PENDING None "aws"))
              (emit (S3HeadObject "bucket" (object_key (sample_row PENDING None "aws")))
                 (one_row_world (sample_row PENDING None "aws")))
              (emit (S3HeadObject "bucket" (object_key (sample_row PENDING None "aws")))
                 (emit (S3HeadObject "bucket" (object_key (sample_row PENDING None "aws")))
                    (one_row_world (sample_row PENDING None "aws")))))
    as (H1 & _ & H2);
    [reflexivity | reflexivity | reflexivity | reflexivity
    | vm_compute; reflexivity | vm_compute; reflexivity | reflexivity |].
  split; [exact H1 | exact H2].
Defined.

(** ** More on [_generate_key] *)

(** X19. Two derivations give the same key exactly when the transaction ids
    are equal and the filenames have the same basename; the service instance
    plays no part. *)
Theorem generate_key_eq_iff self self' tid tid' fn fn' :
  _generate_key self tid fn = _generate_key self' tid' fn' ↔
  tid = tid' ∧ os_path.basename fn = os_path.basename fn'.
Proof.
  rewrite !generate_key_shape. split.
  - intros Heq%uploads_prefix_inj.
    apply split_last_sep_inj in Heq; auto using basename_no_sep.
  - by intros [-> ->].
Qed.

(** X20. What a successful initiate records: the row stored under the
    returned id belongs to the caller, carries the filename and size of the
    request as given, the request's content type or
    ["application/octet-stream"] when there is none, the configured backend
    (['local'] when the setting is absent), the time of the call as creation
    time, and no completion time. *)
Theorem init_records_request E request w r w' :
  UploadInitView_post E request w = (Ok r, w') →
  status_code r = HTTP_200_OK →
  ∃ t,
    db w' !! uuid4 E = Some t ∧
    id t = uuid4 E ∧ user t = req_user request ∧
    Some (filename t) = req_filename request ∧
    Some (file_size t) = req_file_size request ∧
    content_type t = default "application/octet-stream" (req_content_type request) ∧
    backend_used t = default "local" (STORAGE_BACKEND (settings E)) ∧
    created_at t = now E ∧ completed_at t = None.
Proof.
  intros Hpost H200.
  apply init_world in Hpost
    as (_ & _ & [(r0 & fn & sz & Hres & _ & Hfn & Hsz & _ & Hdb) | [_ Hno]]).
  - exists (keyed_row E request fn sz). rewrite Hdb, lookup_insert_eq, Hfn, Hsz.
    repeat split; reflexivity.
  - destruct (Hno r eq_refl) as [H|H]; rewrite H in H200; discriminate.
Qed.

Lemma init_records_request_witness :
  ∃ t,
    db (UploadInitView_post (local_env 1%N) (init_request 7%N "a/report.pdf" 1024)
          empty_world).2 !! 1%N = Some t ∧
    user t = 7%N ∧ content_type t = "application/octet-stream" ∧ backend_used t = "local".
Proof.
  destruct (init_records_request (local_env 1%N) (init_request 7%N "a/report.pdf" 1024)
              empty_world
              (mkResponse
                 [("upload_url",
                   JStr "/api/upload/local/00000000-0000-0000-0000-000000000001/");
                  ("method", JStr "PUT"); ("headers", JDict []);
                  ("transaction_id", JUuid 1%N)] HTTP_200_OK)
              (UploadInitView_post (local_env 1%N) (init_request 7%N "a/report.pdf" 1024)
                 empty_world).2)
    as (t & Hdb & _ & Hu & _ & _ & Hct & Hb & _);
    [vm_compute; reflexivity | reflexivity |].
  exists t. repeat split; [exact Hdb | exact Hu | exact Hct | exact Hb].
Defined.

(** ** Object keys across the table *)

Lemma table_step_keys_derived E request d d' :
  table_step E request d d' → keyed_by_id d → keys_derived d → keys_derived d'.
Proof.
  intros [-> | [(Hfresh & fn & sz & ->) | (tid & t & Hdb & ->)]] Hk Hd; [done| |].
  - intros k t [[<- <-] | [_ Ht]]%lookup_insert_Some; [reflexivity|by apply Hd].
  - intros k t' [[<- <-] | [_ Ht]]%lookup_insert_Some; [|by apply Hd].
    pose proof (Hk _ _ Hdb) as Hid. pose proof (Hd _ _ Hdb) as Hkey.
    simpl. by rewrite Hid.
Qed.

(** X21. Under every route and HTTP method, if each row's object key is the
    key derived from its own id and filename before the request, the same
    holds after it: initiate stores exactly the derived key, and nothing
    else ever writes [object_key]. *)
Theorem requests_keep_keys_derived E r m request w :
  keyed_by_id (db w) → keys_derived (db w) →
  keys_derived (db (as_view E r m request w).2).
Proof. exact (table_step_keys_derived E request _ _ (as_view_table_step E r m request w)). Qed.

Lemma requests_keep_keys_derived_witness :
  keys_derived
    (db (as_view (local_env 2%N) upload_init POST (init_request 8%N "b/notes.txt" 5)
           (one_row_world (sample_row PENDING None "local"))).2).
Proof.
  apply (requests_keep_keys_derived (local_env 2%N) upload_init POST
           (init_request 8%N "b/notes.txt" 5)
           (one_row_world (sample_row PENDING None "local"))).
  - intros k t H. unfold one_row_world in H. cbn [db] in H.
    by apply lookup_singleton_Some in H as [<- <-].
  - intros k t H. unfold one_row_world in H. cbn [db] in H.
    apply lookup_singleton_Some in H as [<- <-]. reflexivity.
Defined.

(** X22. In a table whose keys are derived and whose ids are UUIDs
    (integers below [2 ^ 128]), no two transactions share an object key: two
    rows with the same key are the same row. *)
Theorem derived_keys_are_unique (d : gmap N UploadTransaction) k1 k2 t1 t2 :
  keys_derived d →
  (k1 < 2 ^ 128)%N → (k2 < 2 ^ 128)%N →
  d !! k1 = Some t1 → d !! k2 = Some t2 →
  object_key t1 = object_key t2 →
  k1 = k2 ∧ t1 = t2.
Proof.
  intros Hd Hk1 Hk2 H1 H2 Heq.
  rewrite (Hd _ _ H1), (Hd _ _ H2), !generate_key_shape in Heq.
  apply uploads_prefix_inj in Heq.
  apply split_last_sep_inj in Heq as [Hstr _]; auto using basename_no_sep.
  apply uuid_str_inj in Hstr; [|done..]. subst k2.
  split; [done|]. unfold uuid in *. congruence.
Qed.

Lemma derived_keys_are_unique_witness :
  keys_derived (db (one_row_world (sample_row PENDING None "local"))) ∧
  (1%N = 1%N ∧ sample_row PENDING None "local" = sample_row PENDING None "local").
Proof.
  assert (Hd : keys_derived (db (one_row_world (sample_row PENDING None "local")))).
  { intros k t H. unfold one_row_world in H. cbn [db] in H.
    apply lookup_singleton_Some in H as [<- <-]. reflexivity. }
  split; [exact Hd|].
  exact (derived_keys_are_unique (db (one_row_world (sample_row PENDING None "local")))
           1%N 1%N (sample_row PENDING None "local") (sample_row PENDING None "local")
           Hd eq_refl eq_refl eq_refl eq_refl eq_refl).
Defined.

(** ** The three SDK branches *)

(** X23. On each SDK backend the grant is signed for the derived key, for a
    window of fifteen minutes.  On ['aws'] the URL is what the client
    presigns for the bucket, the derived key and the content type with
    [ExpiresIn = 900].  On ['gcs'] it is what the blob at the derived key
    signs for 15 minutes, the client being built from the service-account
    file exactly when [GS_CREDENTIALS] is set and not empty.  On ['azure']
    the SAS token is requested for the derived key with an expiry 900 seconds
    after now, and the URL is
    [https://{account}.blob.core.windows.net/{container}/{key}?{token}]. *)
Theorem sdk_grants_are_for_the_derived_key E self tid fn ct sz w :
  (∀ client access secret s3 bucket signed,
     backend self = "aws" → boto3 E = Some client →
     AWS_ACCESS_KEY_ID (settings E) = Some access →
     AWS_SECRET_ACCESS_KEY (settings E) = Some secret →
     client access secret (AWS_S3_REGION_NAME (settings E)) = Ok s3 →
     AWS_STORAGE_BUCKET_NAME (settings E) = Some bucket →
     generate_presigned_url s3 bucket (_generate_key self tid fn) ct 900 = Ok signed →
     generate_upload_config E self tid fn ct sz w =
       (Ok (mkUploadConfig signed "PUT" [("Content-Type", ct)] []), w)) ∧
  (∀ mk client bucket signed,
     backend self = "gcs" → gcs E = Some mk →
     mk (match GS_CREDENTIALS (settings E) with
         | Some creds => if PyStr.truthy creds then Some creds else None
         | None => None
         end) = Ok client →
     GS_BUCKET_NAME (settings E) = Some bucket →
     generate_signed_url client bucket (_generate_key self tid fn) 15 ct = Ok signed →
     generate_upload_config E self tid fn ct sz w =
       (Ok (mkUploadConfig signed "PUT" [("Content-Type", ct)] []), w)) ∧
  (∀ sas account account_key container token,
     backend self = "azure" → generate_blob_sas E = Some sas →
     AZURE_ACCOUNT_NAME (settings E) = Some account →
     AZURE_ACCOUNT_KEY (settings E) = Some account_key →
     AZURE_CONTAINER (settings E) = Some container →
     sas account container (_generate_key self tid fn) account_key (now E + 900) = Ok token →
     generate_upload_config E self tid fn ct sz w =
       (Ok (mkUploadConfig
              ("https://" +:+ account +:+ ".blob.core.windows.net/" +:+ container
                 +:+ "/" +:+ _generate_key self tid fn +:+ "?" +:+ token)
              "PUT" [("Content-Type", ct); ("x-ms-blob-type", "BlockBlob")] []), w)).
Proof.
  split; [|split].
  - intros client access secret s3 bucket signed Hb Hsdk Ha Hs Hc Hbk Hsign.
    unfold_storage; unfold_monad. by rewrite Hb, Hsdk, Ha, Hs, Hc, Hbk, Hsign.
  - intros mk client bucket signed Hb Hsdk Hc Hbk Hsign.
    unfold_storage; unfold_monad. rewrite Hb, Hsdk. simpl.
    destruct (GS_CREDENTIALS (settings E)) as [creds|];
      [destruct (PyStr.truthy creds)|]; by rewrite Hc, Hbk, Hsign.
  - intros sas account account_key container token Hb Hsdk Ha Hk Hc Hsas.
    unfold_storage; unfold_monad. rewrite Hb, Hsdk, Ha, Hk, Hc. simpl.
    replace (now E + 15 * 60) with (now E + 900) by lia. by rewrite Hsas.
Qed.

Lemma sdk_grants_are_for_the_derived_key_witness :
  generate_upload_config (aws_env [] 1%N) (CloudStorageService_init (aws_env [] 1%N))
    "7d9c" "a/report.pdf" "application/pdf" 1024 empty_world =
  (Ok (mkUploadConfig "https://bucket.s3.amazonaws.com/uploads/7d9c/report.pdf" "PUT"
         [("Content-Type", "application/pdf")] []), empty_world).
Proof.
  apply (proj1 (sdk_grants_are_for_the_derived_key (aws_env [] 1%N)
                  (CloudStorageService_init (aws_env [] 1%N))
                  "7d9c" "a/report.pdf" "application/pdf" 1024 empty_world)
           (fun _ _ _ => Ok (s3_over [])) "AKIA" "secret" (s3_over []) "bucket");
    reflexivity.
Defined.
